(** * Currency converter: rate client and rate proxy

    A shallow embedding of the data layer of the mobile client
    ([frontend/App.tsx]: [deriveRatesFromFallback], [rate], [statusColor] and
    [loadSymbolsAndRates]) and of the Express proxy ([/health], [/codes],
    [/rates]), followed by the properties the specification states about
    them.  The two sibling variants of the client define
    [deriveRatesFromFallback] and [rate] in the same way.

    Modelling choices:
    - A JavaScript number is an IEEE 754 binary64 value, here a primitive
      float, so that [/] and [*] round as they do in the program.
    - An object used as a dictionary ([Record<string, number>],
      [Record<string, string>]) is a finite map from strings.  In [Client],
      [obj[key]] reads an own property.  This is exact for currency codes:
      they are three upper-case letters, and no property inherited from
      [Object.prototype] has such a name.  For any other string,
      [PrototypeReads] gives [deriveRatesFromFallback] and [rate] with reads
      that also find the properties of [Object.prototype].
    - A string is its sequence of character codes; the default [sort] is
      the lexicographic order on those codes.
    - Values read from a response have the types the source casts them to
      ([[string, string][]], [Record<string, number>], [string]).
    - [async] code runs in a small state-and-exception monad; a promise is
      represented by the way it settles. *)

From Stdlib Require Import Floats ZArith Lia Ascii.
From stdpp Require Import gmap strings list fin_maps sorting.

Set Warnings "-inexact-float,-register-all".

(** ** JavaScript numbers *)

Module JsNumber.

(** [!x] on a number: [0], [-0] and [NaN] are the falsy numbers. *)
Definition falsy (x : float) : bool := (is_zero x || is_nan x)%float.

(** A positive number: [0 < x], which JavaScript also grants to
    [Infinity]. *)
Definition positive (x : float) : bool := (0 <? x)%float.

End JsNumber.

(** ** JavaScript strings that may be [undefined] *)

Module JsString.

(** Truthiness: defined and not empty. *)
Definition truthy (v : option string) : bool :=
  match v with
  | Some s => negb (bool_decide (s = EmptyString))
  | None => false
  end.

(** [v || fallback]. *)
Definition orElse (v : option string) (fallback : string) : string :=
  match v with
  | Some s => if bool_decide (s = EmptyString) then fallback else s
  | None => fallback
  end.

(** [`${v}`]. *)
Definition templateText (v : option string) : string := default "undefined" v.

End JsString.

(** ** Control effects shared by the client and the proxy

    Both programs are [async] functions that write to a mutable store (React
    state for the client, the Express response object for the proxy) and may
    be interrupted by an exception or a rejected promise.  [Eff S A] threads
    the store [S] and ends either normally with a value or abruptly; writes
    done before an abrupt end stay in the store, as in JavaScript. *)

Module Effects.

Inductive Completion (A : Type) : Type :=
| Normal (a : A)
| Abrupt.
Arguments Normal {A} a.
Arguments Abrupt {A}.

Definition Eff (S A : Type) : Type := S -> Completion A * S.

Definition ret {S A} (a : A) : Eff S A := fun s => (Normal a, s).

Definition throw {S A} : Eff S A := fun s => (Abrupt, s).

Definition bind {S A B} (m : Eff S A) (k : A -> Eff S B) : Eff S B :=
  fun s =>
    match m s with
    | (Normal a, s') => k a s'
    | (Abrupt, s') => (Abrupt, s')
    end.

#[global] Instance eff_ret {S} : MRet (Eff S) := fun A => @ret S A.
#[global] Instance eff_bind {S} : MBind (Eff S) := fun A B k m => bind m k.

Definition modify {S} (f : S -> S) : Eff S unit := fun s => (Normal tt, f s).

(** A promise that has settled. *)
Inductive Settled (A : Type) : Type :=
| Fulfilled (a : A)
| Rejected.
Arguments Fulfilled {A} a.
Arguments Rejected {A}.

(** [await p]: the value of a fulfilled promise, an exception for a
    rejected one. *)
Definition await {S A} (p : Settled A) : Eff S A :=
  match p with
  | Fulfilled a => ret a
  | Rejected => throw
  end.

(** [Promise.all([p, q])] rejects as soon as one of the two rejects. *)
Definition promiseAll {A B} (p : Settled A) (q : Settled B) : Settled (A * B) :=
  match p, q with
  | Fulfilled a, Fulfilled b => Fulfilled (a, b)
  | _, _ => Rejected
  end.

(** [try { body } catch { handler }]. *)
Definition tryCatch {S} (body handler : Eff S unit) : Eff S unit :=
  fun s =>
    match body s with
    | (Normal _, s') => (Normal tt, s')
    | (Abrupt, s') => handler s'
    end.

(** [try { body } catch { handler } finally { finalizer }]: the finalizer
    runs on every path, and an exception of the handler outlives it. *)
Definition tryCatchFinally {S} (body handler finalizer : Eff S unit) : Eff S unit :=
  fun s =>
    match tryCatch body handler s with
    | (r, s') =>
        match finalizer s' with
        | (Normal _, s'') => (r, s'')
        | (Abrupt, s'') => (Abrupt, s'')
        end
    end.

End Effects.


(** ** The rate client *)

Module Client.
Import Effects.

Definition fallbackCurrencies : list string :=
  ["USD"; "EUR"; "GBP"; "JPY"; "CAD"; "AUD"; "CHF"].

(** [Object.fromEntries], which is also how an object literal is built: a
    later entry overwrites an earlier one with the same key. *)
Definition fromEntries {V} (entries : list (string * V)) : gmap string V :=
  foldl (fun obj e => <[e.1 := e.2]> obj) ∅ entries.

(** [Object.entries]: the own properties of the object, each once, in the
    order the object keeps them (which the model leaves open). *)
Definition entriesOf {V} (obj : gmap string V) : list (string * V) :=
  map_to_list obj.

Definition fallbackNames : gmap string string :=
  fromEntries
    [("USD", "US Dollar"); ("EUR", "Euro"); ("GBP", "British Pound");
     ("JPY", "Japanese Yen"); ("CAD", "Canadian Dollar");
     ("AUD", "Australian Dollar"); ("CHF", "Swiss Franc")].

(** The properties of the [baseRates] literal, in source order. *)
Definition baseRatesLiteral : list (string * float) :=
  [("USD", 1%float); ("EUR", 0.92%float); ("GBP", 0.78%float);
   ("JPY", 155.8%float); ("CAD", 1.36%float); ("AUD", 1.52%float);
   ("CHF", 0.86%float)].

Definition baseRates : gmap string float := fromEntries baseRatesLiteral.


Definition deriveRatesFromFallback (base : string) : gmap string float :=
  match baseRates !! base with
  | Some b =>
      if JsNumber.falsy b then baseRates
      else
        let usdPerBase := (1 / b)%float in
        let entries :=
          (fun '(code, rate) => (code, (usdPerBase * rate)%float))
            <$> entriesOf baseRates in
        fromEntries entries
  | None => baseRates
  end.

(** The operands of the division [rate] performs, when it performs one:
    [None] is the guarded early [return 1], taken when [rates[fromCurrency]]
    or [rates[toCurrency]] is falsy ([undefined], [0], [-0] or [NaN]). *)
Definition rateOperands (rates : gmap string float)
    (fromCurrency toCurrency : string) : option (float * float) :=
  match rates !! fromCurrency, rates !! toCurrency with
  | Some f, Some t =>
      if JsNumber.falsy f || JsNumber.falsy t then None else Some (t, f)
  | _, _ => None
  end.

Definition rate (rates : gmap string float)
    (fromCurrency toCurrency : string) : float :=
  match rateOperands rates fromCurrency toCurrency with
  | None => 1%float
  | Some (t, f) => (t / f)%float
  end.

(** *** React state of the data layer *)

Record AppState : Type := mkAppState {
  currencies : list string;
  currencyNames : gmap string string;
  rates : gmap string float;
  usingFallback : bool;
  loading : bool
}.

(** The values given to [useState]. *)
Definition initialState : AppState :=
  {| currencies := fallbackCurrencies;
     currencyNames := fallbackNames;
     rates := deriveRatesFromFallback "USD";
     usingFallback := false;
     loading := true |}.

(** The state every fallback path installs before it leaves the loading
    state. *)
Definition fallbackState : AppState :=
  {| currencies := fallbackCurrencies;
     currencyNames := fallbackNames;
     rates := deriveRatesFromFallback "USD";
     usingFallback := true;
     loading := false |}.

(** The store of a fetch cycle: the React state and the requests handed to
    [fetch] so far, oldest first. *)
Record World : Type := mkWorld {
  app : AppState;
  requests : list string
}.

Definition setCurrencies (v : list string) : Eff World unit :=
  modify (fun w =>
    mkWorld (mkAppState v (currencyNames (app w)) (rates (app w))
               (usingFallback (app w)) (loading (app w)))
            (requests w)).

Definition setCurrencyNames (v : gmap string string) : Eff World unit :=
  modify (fun w =>
    mkWorld (mkAppState (currencies (app w)) v (rates (app w))
               (usingFallback (app w)) (loading (app w)))
            (requests w)).

Definition setRates (v : gmap string float) : Eff World unit :=
  modify (fun w =>
    mkWorld (mkAppState (currencies (app w)) (currencyNames (app w)) v
               (usingFallback (app w)) (loading (app w)))
            (requests w)).

Definition setUsingFallback (v : bool) : Eff World unit :=
  modify (fun w =>
    mkWorld (mkAppState (currencies (app w)) (currencyNames (app w))
               (rates (app w)) v (loading (app w)))
            (requests w)).

Definition setLoading (v : bool) : Eff World unit :=
  modify (fun w =>
    mkWorld (mkAppState (currencies (app w)) (currencyNames (app w))
               (rates (app w)) (usingFallback (app w)) v)
            (requests w)).

(** The status indicator: [statusColor] tests [loading] first, then
    [usingFallback]. *)
Inductive FreshnessStatus : Type :=
| StatusLoading
| StatusFallback
| StatusLive.

Definition freshness (s : AppState) : FreshnessStatus :=
  if loading s then StatusLoading
  else if usingFallback s then StatusFallback else StatusLive.

Definition statusColor (s : AppState) : string :=
  match freshness s with
  | StatusLoading => "#f59e0b"
  | StatusFallback => "#f97316"
  | StatusLive => "#22d3ee"
  end.

(** *** HTTP as the client sees it *)

(** A parsed response body, read through the fields the client looks at.
    [result] is [None] unless the field is a string; [supported_codes] is
    [None] unless the field is an array, whose elements are then the pairs
    the source casts them to; [base_code] and [conversion_rates] are [None]
    when the field is missing or falsy, and otherwise the string and the
    table of numbers the source casts them to. *)
Record ApiJson : Type := mkApiJson {
  result : option string;
  supported_codes : option (list (string * string));
  base_code : option string;
  conversion_rates : option (gmap string float)
}.

(** A [Response]: [ok] is the 2xx test, [json] the promise returned by
    [res.json()], fulfilled with [None] for a body that is [null] (or no
    object at all). *)
Record HttpResponse : Type := mkHttpResponse {
  ok : bool;
  json : Settled (option ApiJson)
}.

(** The network: the settled promise [fetch] returns for each URL. *)
Definition Network : Type := string -> Settled HttpResponse.

(** [fetch(url)]: the request goes out, the promise comes back. *)
Definition fetch (net : Network) (url : string) : Eff World (Settled HttpResponse) :=
  fun w => (Normal (net url), mkWorld (app w) (requests w ++ [url])).

(** [s.replace(/\/$/, '')]: drops one slash at the very end. *)
Fixpoint stripTrailingSlash (s : string) : string :=
  match s with
  | EmptyString => EmptyString
  | String c EmptyString => if Ascii.eqb c "/"%char then EmptyString else s
  | String c rest => String c (stripTrailingSlash rest)
  end.

(** [json?.result === 'success']. *)
Definition resultIsSuccess (body : option ApiJson) : bool :=
  match body with
  | Some j => bool_decide (result j = Some "success")
  | None => false
  end.

(** [Array.isArray(codesJson.supported_codes)], under [codesJson?.result === 'success']. *)
Definition isArraySupportedCodes (body : option ApiJson) : bool :=
  match body with
  | Some j => bool_decide (is_Some (supported_codes j))
  | None => false
  end.

(** Truthiness of [ratesJson.conversion_rates]. *)
Definition hasConversionRates (body : option ApiJson) : bool :=
  match body with
  | Some j => bool_decide (is_Some (conversion_rates j))
  | None => false
  end.

(** [codesJson.supported_codes as [string, string][]]. *)
Definition supportedCodesOf (body : option ApiJson) : list (string * string) :=
  default [] (body ≫= supported_codes).

(** [ratesJson.conversion_rates as Record<string, number>]. *)
Definition conversionRatesOf (body : option ApiJson) : gmap string float :=
  default ∅ (body ≫= conversion_rates).

(** [(ratesJson.base_code as string) || 'USD']. *)
Definition baseCodeOf (body : option ApiJson) : string :=
  JsString.orElse (body ≫= base_code) "USD".

(** [pairs.map(([code]) => code).sort()]: the default sort orders strings by
    their code units. *)
Definition sortedCodes (pairs : list (string * string)) : list string :=
  merge_sort String.le (pairs.*1).

(** The [if (!apiBaseUrl)] branch. *)
Definition installFallback : Eff World unit :=
  setCurrencies fallbackCurrencies;;
  setCurrencyNames fallbackNames;;
  setRates (deriveRatesFromFallback "USD");;
  setUsingFallback true;;
  setLoading false.

(** The local [codesSuccess]. *)
Definition codesSuccessOf (codesRes : HttpResponse) (codesJson : option ApiJson) : bool :=
  ok codesRes && resultIsSuccess codesJson && isArraySupportedCodes codesJson.

(** The local [ratesSuccess], as a truth value. *)
Definition ratesSuccessOf (ratesRes : HttpResponse) (ratesJson : option ApiJson) : bool :=
  ok ratesRes && resultIsSuccess ratesJson && hasConversionRates ratesJson.

(** [res.ok ? await res.json() : null]. *)
Definition bodyOf (response : HttpResponse) : Eff World (option ApiJson) :=
  if ok response then await (json response) else ret None.

(** The [try] block. *)
Definition fetchAndApply (net : Network) (codesUrl ratesUrl : string) : Eff World unit :=
  codesPromise ← fetch net codesUrl;
  ratesPromise ← fetch net ratesUrl;
  responses ← await (promiseAll codesPromise ratesPromise);
  let codesRes := responses.1 in
  let ratesRes := responses.2 in
  codesJson ← bodyOf codesRes;
  ratesJson ← bodyOf ratesRes;
  let codesSuccess := codesSuccessOf codesRes codesJson in
  let ratesSuccess := ratesSuccessOf ratesRes ratesJson in
  (if codesSuccess then
     let pairs := supportedCodesOf codesJson in
     let codes := sortedCodes pairs in
     let names := fromEntries pairs in
     setCurrencies codes;;
     setCurrencyNames names
   else
     setCurrencies fallbackCurrencies;;
     setCurrencyNames fallbackNames);;
  (if ratesSuccess then
     let incoming := conversionRatesOf ratesJson in
     let baseCode := baseCodeOf ratesJson in
     setRates (<[baseCode := 1%float]> incoming)
   else
     setRates (deriveRatesFromFallback "USD"));;
  setUsingFallback (negb (codesSuccess && ratesSuccess)).

(** The [catch] block. *)
Definition resetToFallback : Eff World unit :=
  setCurrencies fallbackCurrencies;;
  setCurrencyNames fallbackNames;;
  setRates (deriveRatesFromFallback "USD");;
  setUsingFallback true.

(** The [if (!apiBaseUrl)] test: the address when it is set and not empty. *)
Definition configured (apiBaseUrl : option string) : option string :=
  if JsString.truthy apiBaseUrl then apiBaseUrl else None.

Definition codesUrlOf (apiBaseUrl : string) : string :=
  stripTrailingSlash apiBaseUrl +:+ "/codes".

Definition ratesUrlOf (apiBaseUrl : string) : string :=
  stripTrailingSlash apiBaseUrl +:+ "/rates?base=USD".

Definition loadSymbolsAndRates (apiBaseUrl : option string) (net : Network) : Eff World unit :=
  setLoading true;;
  match configured apiBaseUrl with
  | None => installFallback
  | Some url =>
      let codesUrl := codesUrlOf url in
      let ratesUrl := ratesUrlOf url in
      tryCatchFinally (fetchAndApply net codesUrl ratesUrl)
        resetToFallback
        (setLoading false)
  end.

(** The state and the request log a cycle ends with, started from [s] with
    nothing requested yet. *)
Definition runCycle (apiBaseUrl : option string) (net : Network) (s : AppState) : World :=
  (loadSymbolsAndRates apiBaseUrl net (mkWorld s [])).2.

(** *** The try block in closed form

    The definitions below restate what [fetchAndApply] computes without the
    monad; [fetchAndApply_unfold] proves that they agree with it. *)

(** The promise behind [res.ok ? await res.json() : null]. *)
Definition bodyPromise (response : HttpResponse) : Settled (option ApiJson) :=
  if ok response then json response else Fulfilled None.

(** What the [await]s of the try block deliver: the two responses and the
    two bodies, or a rejection as soon as one of them throws. *)
Definition awaited (net : Network) (codesUrl ratesUrl : string)
  : Settled (HttpResponse * HttpResponse * option ApiJson * option ApiJson) :=
  match promiseAll (net codesUrl) (net ratesUrl) with
  | Fulfilled (codesRes, ratesRes) =>
      match bodyPromise codesRes, bodyPromise ratesRes with
      | Fulfilled codesJson, Fulfilled ratesJson =>
          Fulfilled (codesRes, ratesRes, codesJson, ratesJson)
      | _, _ => Rejected
      end
  | Rejected => Rejected
  end.

(** The state the try block leaves when nothing throws. *)
Definition applied (s : AppState) (codesRes ratesRes : HttpResponse)
    (codesJson ratesJson : option ApiJson) : AppState :=
  let codesSuccess := codesSuccessOf codesRes codesJson in
  let ratesSuccess := ratesSuccessOf ratesRes ratesJson in
  {| currencies :=
       if codesSuccess then sortedCodes (supportedCodesOf codesJson)
       else fallbackCurrencies;
     currencyNames :=
       if codesSuccess then fromEntries (supportedCodesOf codesJson)
       else fallbackNames;
     rates :=
       if ratesSuccess
       then <[baseCodeOf ratesJson := 1%float]> (conversionRatesOf ratesJson)
       else deriveRatesFromFallback "USD";
     usingFallback := negb (codesSuccess && ratesSuccess);
     loading := loading s |}.

(** The numeraire of the table a cycle installs: the base code a successful
    rates response names ([base_code || 'USD']), and the US dollar of the
    built-in table on every fallback path. *)
Definition cycleNumeraire (apiBaseUrl : option string) (net : Network) : string :=
  match configured apiBaseUrl with
  | None => "USD"
  | Some url =>
      match awaited net (codesUrlOf url) (ratesUrlOf url) with
      | Fulfilled (_, ratesRes, _, ratesJson) =>
          if ratesSuccessOf ratesRes ratesJson then baseCodeOf ratesJson
          else "USD"
      | Rejected => "USD"
      end
  end.

End Client.

(** ** The rate proxy *)

Module Proxy.
Import Effects.

(** A JSON value as [JSON.parse] returns it. *)
Inductive Json : Type :=
| JNull
| JBool (b : bool)
| JNumber (x : float)
| JString (s : string)
| JArray (items : list Json)
| JObject (members : list (string * Json)).

(** The member a key denotes: of two members with the same name the later
    one is the property of the object. *)
Definition lookupMember (key : string) (members : list (string * Json)) : option Json :=
  foldl (fun found m => if bool_decide (m.1 = key) then Some m.2 else found)
        None members.

(** [json?.key]: [undefined] for [null] and for a value without that
    property. *)
Definition getProp (key : string) (v : Json) : option Json :=
  match v with
  | JObject members => lookupMember key members
  | _ => None
  end.

(** [json?.result === 'success']. *)
Definition resultIsSuccess (v : Json) : bool :=
  match getProp "result" v with
  | Some (JString s) => bool_decide (s = "success")
  | _ => false
  end.

(** What the upstream provider answers: [ok] is the 2xx test, [json] the
    promise of [upstream.json()], rejected for a body that is no JSON. *)
Record UpstreamResponse : Type := mkUpstreamResponse {
  ok : bool;
  json : Settled Json
}.

Definition Upstream : Type := string -> Settled UpstreamResponse.

(** The Express response object: the status code set so far (200 until
    [res.status] is called) and the body handed to [res.json]. *)
Record Reply : Type := mkReply {
  statusCode : Z;
  body : option Json
}.

(** The store of one request: the response under construction and the
    outbound calls made so far, oldest first. *)
Record ProxyWorld : Type := mkProxyWorld {
  res : Reply;
  outbound : list string
}.

Definition freshWorld : ProxyWorld := mkProxyWorld (mkReply 200 None) [].

Definition resStatus (code : Z) : Eff ProxyWorld unit :=
  modify (fun w => mkProxyWorld (mkReply code (body (res w))) (outbound w)).

Definition resJson (v : Json) : Eff ProxyWorld unit :=
  modify (fun w => mkProxyWorld (mkReply (statusCode (res w)) (Some v)) (outbound w)).

Definition UPSTREAM_BASE : string := "https://v6.exchangerate-api.com/v6".

Section Handlers.

(** [process.env.EXCHANGERATE_API_KEY]. *)
Variable API_KEY : option string.

(** The provider behind the global [fetch]. *)
Variable upstream : Upstream.

(** [String.prototype.toUpperCase] and the global [encodeURIComponent]. *)
Variable toUpperCase : string -> string.
Variable encodeURIComponent : string -> string.

Definition fetch (url : string) : Eff ProxyWorld (Settled UpstreamResponse) :=
  fun w => (Normal (upstream url), mkProxyWorld (res w) (outbound w ++ [url])).

Definition ensureApiKey : Eff ProxyWorld bool :=
  if JsString.truthy API_KEY then mret true
  else
    resStatus 500;;
    resJson (JObject [("error", JString "Missing EXCHANGERATE_API_KEY on the backend")]);;
    mret false.

(** The body shared by the two data routes, from the [try] on. *)
Definition relay (url failure : string) : Eff ProxyWorld unit :=
  tryCatch
    (promise ← fetch url;
     response ← await promise;
     parsed ← await (json response);
     if negb (ok response) || negb (resultIsSuccess parsed) then
       resStatus 502;;
       resJson (JObject [("error", JString "Upstream error"); ("details", parsed)])
     else
       resJson parsed)
    (resStatus 500;;
     resJson (JObject [("error", JString failure)])).

Definition getHealth : Eff ProxyWorld unit :=
  resJson (JObject [("ok", JBool true)]).

Definition getCodes : Eff ProxyWorld unit :=
  keyPresent ← ensureApiKey;
  if negb keyPresent then mret tt
  else
    let url := UPSTREAM_BASE +:+ "/" +:+ JsString.templateText API_KEY +:+ "/codes" in
    relay url "Failed to fetch codes".

(** [queryBase] is [req.query.base]. *)
Definition getRates (queryBase : option string) : Eff ProxyWorld unit :=
  keyPresent ← ensureApiKey;
  if negb keyPresent then mret tt
  else
    let base := toUpperCase (JsString.orElse queryBase "USD") in
    let url :=
      UPSTREAM_BASE +:+ "/" +:+ JsString.templateText API_KEY +:+ "/latest/" +:+ encodeURIComponent base in
    relay url "Failed to fetch rates".

(** The two data endpoints. *)
Inductive DataRoute : Type :=
| RouteCodes
| RouteRates (queryBase : option string).

Definition handle (route : DataRoute) : Eff ProxyWorld unit :=
  match route with
  | RouteCodes => getCodes
  | RouteRates queryBase => getRates queryBase
  end.

(** The URL a data route asks the provider for. *)
Definition upstreamUrl (route : DataRoute) : string :=
  match route with
  | RouteCodes => UPSTREAM_BASE +:+ "/" +:+ JsString.templateText API_KEY +:+ "/codes"
  | RouteRates queryBase =>
      UPSTREAM_BASE +:+ "/" +:+ JsString.templateText API_KEY +:+ "/latest/"
        +:+ encodeURIComponent
              (toUpperCase (JsString.orElse queryBase "USD"))
  end.

(** The response sent and the outbound calls made for one request. *)
Definition serve (route : DataRoute) : ProxyWorld := (handle route freshWorld).2.

End Handlers.

(** The three error replies of the data routes. *)
Definition missingKeyReply : Reply :=
  mkReply 500
    (Some (JObject [("error", JString "Missing EXCHANGERATE_API_KEY on the backend")])).

Definition upstreamErrorReply (details : Json) : Reply :=
  mkReply 502
    (Some (JObject [("error", JString "Upstream error"); ("details", details)])).

Definition failureReply (failure : string) : Reply :=
  mkReply 500 (Some (JObject [("error", JString failure)])).

End Proxy.

(** ** The converter screen

    The amount fields, the keypad, the currency picker and its search, as
    [AppContent] defines them.  [Number(s)] and [x.toFixed(2)] are taken as
    parameters.  The amount fields hold ASCII text: they are written by
    [sanitizeNumber], by [toFixed] and by copying one another. *)

Module Converter.

(** [type Target = 'from' | 'to']. *)
Inductive Target : Type :=
| TargetFrom
| TargetTo.

(** Membership in the character class [[0-9.,]]. *)
Definition allowedChar (c : ascii) : bool :=
  (Ascii.leb "0" c && Ascii.leb c "9") || Ascii.eqb c "." || Ascii.eqb c ",".

(** [value.replace(/[^0-9.,]/g, '')]. *)
Fixpoint sanitizeNumber (value : string) : string :=
  match value with
  | EmptyString => EmptyString
  | String c rest =>
      if allowedChar c then String c (sanitizeNumber rest)
      else sanitizeNumber rest
  end.

(** [value.replace(',', '.')]: only the first comma is replaced. *)
Fixpoint replaceFirstComma (value : string) : string :=
  match value with
  | EmptyString => EmptyString
  | String c rest =>
      if Ascii.eqb c "," then String "." rest
      else String c (replaceFirstComma rest)
  end.

(** [s.startsWith(prefix)]. *)
Fixpoint startsWith (s prefix : string) : bool :=
  match prefix, s with
  | EmptyString, _ => true
  | String a prefix', String b s' => Ascii.eqb a b && startsWith s' prefix'
  | String _ _, EmptyString => false
  end.

(** [s.includes(searchString)]. *)
Fixpoint includes (s searchString : string) : bool :=
  startsWith s searchString ||
  match s with
  | EmptyString => false
  | String _ s' => includes s' searchString
  end.

(** [s.slice(0, -1)]: all but the last character, nothing for the empty
    string. *)
Fixpoint dropLast (s : string) : string :=
  match s with
  | EmptyString => EmptyString
  | String c EmptyString => EmptyString
  | String c rest => String c (dropLast rest)
  end.

(** *** Shapes of an amount field *)

(** Every character is a digit, a dot or a comma. *)
Fixpoint isClean (s : string) : bool :=
  match s with
  | EmptyString => true
  | String c rest => allowedChar c && isClean rest
  end.

Definition isDigit (c : ascii) : bool := Ascii.leb "0" c && Ascii.leb c "9".

(** Every character is a digit or a dot. *)
Fixpoint digitsAndDots (s : string) : bool :=
  match s with
  | EmptyString => true
  | String c rest => (isDigit c || Ascii.eqb c ".") && digitsAndDots rest
  end.

(** The number of decimal points. *)
Fixpoint countDots (s : string) : nat :=
  match s with
  | EmptyString => 0
  | String c rest => (if Ascii.eqb c "." then 1 else 0) + countDots rest
  end.

(** A zero in front of another digit. *)
Definition superfluousZero (s : string) : bool :=
  match s with
  | String a (String b _) => Ascii.eqb a "0" && isDigit b
  | _ => false
  end.

(** What keypad entry produces: digits with at most one decimal point and
    no zero in front of another digit. *)
Definition keypadEntry (s : string) : bool :=
  digitsAndDots s && (countDots s <=? 1)%nat && negb (superfluousZero s).

(** The state of [AppContent] next to the data layer. *)
Record ConverterState : Type := mkConverterState {
  fromCurrency : string;
  toCurrency : string;
  amountFrom : string;
  amountTo : string;
  activeInput : Target;
  modalVisible : bool;
  modalTarget : Target;
  searchTerm : string
}.

(** The values given to [useState]. *)
Definition initialConverter : ConverterState :=
  {| fromCurrency := "EUR"; toCurrency := "USD";
     amountFrom := "0"; amountTo := "0.00";
     activeInput := TargetFrom;
     modalVisible := false; modalTarget := TargetFrom;
     searchTerm := EmptyString |}.

(** The field the keypad edits. *)
Definition activeAmount (s : ConverterState) : string :=
  match activeInput s with
  | TargetFrom => amountFrom s
  | TargetTo => amountTo s
  end.

(** The text a key turns the active field into, before it is sanitized;
    [None] is the early [return] on a second decimal point. *)
Definition editField (current key : string) : option string :=
  let next := current in
  if bool_decide (key = "backspace") then Some (dropLast next)
  else if bool_decide (key = ".") then
    if includes next "." then None
    else Some (if bool_decide (next = EmptyString) then "0." else next +:+ ".")
  else Some (if bool_decide (next = "0") then key else next +:+ key).

Definition keypadLayout : list (list string) :=
  [["1"; "2"; "3"]; ["4"; "5"; "6"]; ["7"; "8"; "9"]; ["."; "0"; "backspace"]].

Definition swap (s : ConverterState) : ConverterState :=
  let prevFrom := fromCurrency s in
  let prevTo := toCurrency s in
  let prevAmountTo := amountTo s in
  {| fromCurrency := prevTo; toCurrency := prevFrom;
     amountFrom := prevAmountTo; amountTo := amountTo s;
     activeInput := TargetFrom;
     modalVisible := modalVisible s; modalTarget := modalTarget s;
     searchTerm := searchTerm s |}.







Section Amounts.

(** The global [Number], applied to a string, and [x.toFixed(2)]. *)
Variable Number : string -> float.
Variable toFixed2 : float -> string.

Definition parseNumber (value : string) : float :=
  Number (replaceFirstComma value).

Definition formatAmount (value : float) : string :=
  if is_finite value then toFixed2 value else "0.00".

Definition setFromValue (rate : float) (value : string) (s : ConverterState) : ConverterState :=
  let clean := sanitizeNumber value in
  let parsed := parseNumber clean in
  {| fromCurrency := fromCurrency s; toCurrency := toCurrency s;
     amountFrom := clean;
     amountTo := formatAmount (parsed * rate)%float;
     activeInput := TargetFrom;
     modalVisible := modalVisible s; modalTarget := modalTarget s;
     searchTerm := searchTerm s |}.

Definition setToValue (rate : float) (value : string) (s : ConverterState) : ConverterState :=
  let clean := sanitizeNumber value in
  let parsed := parseNumber clean in
  {| fromCurrency := fromCurrency s; toCurrency := toCurrency s;
     amountFrom := formatAmount (parsed / rate)%float;
     amountTo := clean;
     activeInput := TargetTo;
     modalVisible := modalVisible s; modalTarget := modalTarget s;
     searchTerm := searchTerm s |}.

(** The effect that keeps the passive field in step with the active one. *)
Definition syncAmounts (rate : float) (s : ConverterState) : ConverterState :=
  match activeInput s with
  | TargetFrom =>
      let parsed := parseNumber (amountFrom s) in
      {| fromCurrency := fromCurrency s; toCurrency := toCurrency s;
         amountFrom := amountFrom s;
         amountTo := formatAmount (parsed * rate)%float;
         activeInput := activeInput s;
         modalVisible := modalVisible s; modalTarget := modalTarget s;
         searchTerm := searchTerm s |}
  | TargetTo =>
      let parsed := parseNumber (amountTo s) in
      {| fromCurrency := fromCurrency s; toCurrency := toCurrency s;
         amountFrom := formatAmount (parsed / rate)%float;
         amountTo := amountTo s;
         activeInput := activeInput s;
         modalVisible := modalVisible s; modalTarget := modalTarget s;
         searchTerm := searchTerm s |}
  end.

Definition handleKeyPress (rate : float) (key : string) (s : ConverterState) : ConverterState :=
  match editField (activeAmount s) key with
  | None => s
  | Some next =>
      match activeInput s with
      | TargetFrom => setFromValue rate next s
      | TargetTo => setToValue rate next s
      end
  end.

End Amounts.

Section Search.

(** [String.prototype.trim] and [String.prototype.toLowerCase]. *)
Variable trim : string -> string.
Variable toLowerCase : string -> string.

(** The search term as the filter uses it. *)
Definition searchKey (searchTerm : string) : string :=
  toLowerCase (trim searchTerm).

(** The test of the [filter] callback. *)
Definition matchesTerm (currencyNames : gmap string string) (term code : string) : bool :=
  let name := from_option toLowerCase EmptyString (currencyNames !! code) in
  includes (toLowerCase code) term || includes name term.

Definition filteredCurrencies (currencies : list string)
    (currencyNames : gmap string string) (searchTerm : string) : list string :=
  let term := searchKey searchTerm in
  if bool_decide (term = EmptyString) then currencies
  else List.filter (matchesTerm currencyNames term) currencies.

End Search.

End Converter.

(** ** The client that calls the provider directly

    The two sibling variants of the client read a key instead of a backend
    address, build the provider's URLs themselves, and leave the [ok] test
    out of [codesSuccess] and [ratesSuccess]. *)

Module DirectClient.
Import Effects Client.

(** The local [codesSuccess] of the variants. *)
Definition codesSuccessOf (codesJson : option ApiJson) : bool :=
  resultIsSuccess codesJson && isArraySupportedCodes codesJson.

(** The local [ratesSuccess] of the variants, as a truth value. *)
Definition ratesSuccessOf (ratesJson : option ApiJson) : bool :=
  resultIsSuccess ratesJson && hasConversionRates ratesJson.

(** The [try] block. *)
Definition fetchAndApply (net : Network) (codesUrl ratesUrl : string) : Eff World unit :=
  codesPromise ← fetch net codesUrl;
  ratesPromise ← fetch net ratesUrl;
  responses ← await (promiseAll codesPromise ratesPromise);
  let codesRes := responses.1 in
  let ratesRes := responses.2 in
  codesJson ← bodyOf codesRes;
  ratesJson ← bodyOf ratesRes;
  let codesSuccess := codesSuccessOf codesJson in
  let ratesSuccess := ratesSuccessOf ratesJson in
  (if codesSuccess then
     let pairs := supportedCodesOf codesJson in
     let codes := sortedCodes pairs in
     let names := fromEntries pairs in
     setCurrencies codes;;
     setCurrencyNames names
   else
     setCurrencies fallbackCurrencies;;
     setCurrencyNames fallbackNames);;
  (if ratesSuccess then
     let incoming := conversionRatesOf ratesJson in
     let baseCode := baseCodeOf ratesJson in
     setRates (<[baseCode := 1%float]> incoming)
   else
     setRates (deriveRatesFromFallback "USD"));;
  setUsingFallback (negb (codesSuccess && ratesSuccess)).

Definition codesUrlOf (apiKey : string) : string :=
  "https://v6.exchangerate-api.com/v6/" +:+ apiKey +:+ "/codes".

Definition ratesUrlOf (apiKey : string) : string :=
  "https://v6.exchangerate-api.com/v6/" +:+ apiKey +:+ "/latest/USD".

Definition loadSymbolsAndRates (apiKey : option string) (net : Network) : Eff World unit :=
  setLoading true;;
  match configured apiKey with
  | None => installFallback
  | Some key =>
      let codesUrl := codesUrlOf key in
      let ratesUrl := ratesUrlOf key in
      tryCatchFinally (fetchAndApply net codesUrl ratesUrl)
        resetToFallback
        (setLoading false)
  end.

Definition runCycle (apiKey : option string) (net : Network) (s : AppState) : World :=
  (loadSymbolsAndRates apiKey net (mkWorld s [])).2.

End DirectClient.

(** ** The configuration of the proxy *)

Module ProxyConfig.

(** [s.split(',')]: the pieces between the commas, at least one. *)
Fixpoint splitComma (s : string) : list string :=
  match s with
  | EmptyString => [EmptyString]
  | String c rest =>
      if Ascii.eqb c "," then EmptyString :: splitComma rest
      else
        match splitComma rest with
        | piece :: pieces => String c piece :: pieces
        | [] => [String c EmptyString]
        end
  end.

(** The [origin] option handed to [cors]: [true], or a list of origins. *)
Inductive CorsOrigin : Type :=
| AnyOrigin
| OriginList (origins : list string).

Section Origins.

(** [String.prototype.trim]. *)
Variable trim : string -> string.

(** [filter(Boolean)] on strings keeps the non-empty ones. *)
Definition nonEmpty (s : string) : bool := negb (bool_decide (s = EmptyString)).

(** [ALLOWED_ORIGINS], [None] for [null]; [env] is
    [process.env.ALLOWED_ORIGINS]. *)
Definition ALLOWED_ORIGINS (env : option string) : option (list string) :=
  match env with
  | Some value =>
      if JsString.truthy env
      then Some (List.filter nonEmpty (trim <$> splitComma value))
      else None
  | None => None
  end.

(** [ALLOWED_ORIGINS && ALLOWED_ORIGINS.length > 0 ? ALLOWED_ORIGINS : true]. *)
Definition corsOrigin (env : option string) : CorsOrigin :=
  match ALLOWED_ORIGINS env with
  | Some origins =>
      if (0 <? length origins)%nat then OriginList origins else AnyOrigin
  | None => AnyOrigin
  end.

End Origins.

(** The message of the generic failure reply of a data route. *)
Definition failureOf (route : Proxy.DataRoute) : string :=
  match route with
  | Proxy.RouteCodes => "Failed to fetch codes"
  | Proxy.RouteRates _ => "Failed to fetch rates"
  end.

End ProxyConfig.

(** ** Sample traffic

    Concrete backends and responses on which the statements below are
    exercised. *)

Module Samples.
Import Effects.

Definition backend : string := "https://proxy.example/".

Definition codesBody : Client.ApiJson :=
  {| Client.result := Some "success";
     Client.supported_codes :=
       Some [("USD", "United States Dollar"); ("EUR", "Euro"); ("CHF", "Swiss Franc")];
     Client.base_code := None;
     Client.conversion_rates := None |}.

Definition ratesErrorBody : Client.ApiJson :=
  {| Client.result := Some "error";
     Client.supported_codes := None;
     Client.base_code := None;
     Client.conversion_rates := None |}.

Definition codesOk : Client.HttpResponse :=
  {| Client.ok := true; Client.json := Fulfilled (Some codesBody) |}.

(** The codes request succeeds, the rates request comes back with
    [result: "error"]. *)
Definition ratesFail : Client.Network :=
  fun url =>
    if bool_decide (url = "https://proxy.example/codes") then Fulfilled codesOk
    else Fulfilled {| Client.ok := true; Client.json := Fulfilled (Some ratesErrorBody) |}.

(** The codes request succeeds, the body of the rates response is no
    JSON. *)
Definition ratesMalformed : Client.Network :=
  fun url =>
    if bool_decide (url = "https://proxy.example/codes") then Fulfilled codesOk
    else Fulfilled {| Client.ok := true; Client.json := Rejected |}.

(** A try block that installs a catalog and then throws. *)
Definition applyThenThrow : Eff Client.World unit :=
  Client.setCurrencies ["XAU"];; throw.

(** An upstream provider that rejects the credential. *)
Definition invalidKeyBody : Proxy.Json :=
  Proxy.JObject
    [("result", Proxy.JString "error"); ("error-type", Proxy.JString "invalid-key")].

Definition rejectingUpstream : Proxy.Upstream :=
  fun _ => Fulfilled {| Proxy.ok := false; Proxy.json := Fulfilled invalidKeyBody |}.

End Samples.

(** ** Backend addresses *)

Module Address.

(** [s.endsWith('/')]. *)
Fixpoint endsWithSlash (s : string) : bool :=
  match s with
  | EmptyString => false
  | String c EmptyString => Ascii.eqb c "/"
  | String _ rest => endsWithSlash rest
  end.

End Address.

(** More traffic: live rates, and a codes request that fails. *)

Module LiveSamples.
Import Effects.

Definition ratesBody : Client.ApiJson :=
  {| Client.result := Some "success";
     Client.supported_codes := None;
     Client.base_code := Some "USD";
     Client.conversion_rates :=
       Some (Client.fromEntries
               [("USD", 1%float); ("EUR", 0.9%float); ("CHF", 0.8%float)]) |}.

Definition ratesOk : Client.HttpResponse :=
  {| Client.ok := true; Client.json := Fulfilled (Some ratesBody) |}.

(** Both requests succeed. *)
Definition bothSucceed : Client.Network :=
  fun url =>
    if bool_decide (url = "https://proxy.example/codes")
    then Fulfilled Samples.codesOk
    else Fulfilled ratesOk.

(** The codes request meets a 502, the rates request succeeds. *)
Definition codesFail : Client.Network :=
  fun url =>
    if bool_decide (url = "https://proxy.example/codes")
    then Fulfilled {| Client.ok := false; Client.json := Rejected |}
    else Fulfilled ratesOk.

(** The provider seen directly, answering like [bothSucceed]. *)
Definition providerSucceeds : Client.Network :=
  fun url =>
    if bool_decide (url = "https://v6.exchangerate-api.com/v6/k3y/codes")
    then Fulfilled Samples.codesOk
    else Fulfilled ratesOk.

(** A provider that answers with a catalog. *)
Definition catalogBody : Proxy.Json :=
  Proxy.JObject
    [("result", Proxy.JString "success");
     ("supported_codes",
      Proxy.JArray [Proxy.JArray [Proxy.JString "USD"; Proxy.JString "US Dollar"]])].

Definition answeringUpstream : Proxy.Upstream :=
  fun _ => Fulfilled {| Proxy.ok := true; Proxy.json := Fulfilled catalogBody |}.

(** A provider that answers with a page that is no JSON. *)
Definition garbledUpstream : Proxy.Upstream :=
  fun _ => Fulfilled {| Proxy.ok := true; Proxy.json := Rejected |}.

(** A provider that answers 200 with an error in the body. *)
Definition unsupportedCodeBody : Proxy.Json :=
  Proxy.JObject
    [("result", Proxy.JString "error");
     ("error-type", Proxy.JString "unsupported-code")].

Definition refusingUpstream : Proxy.Upstream :=
  fun _ => Fulfilled {| Proxy.ok := true; Proxy.json := Fulfilled unsupportedCodeBody |}.

End LiveSamples.

(** ** Property reads through the prototype *)

(** The tables of the client are plain objects: the [baseRates] literal, the
    results of [Object.fromEntries] and of a spread, and what [JSON.parse]
    returns.  A read [obj[key]] on such an object finds an own property
    first and then a property of [Object.prototype]. *)

Module JsObject.

(** The property names of [Object.prototype]. *)
Definition prototypeNames : list string :=
  ["constructor"; "hasOwnProperty"; "isPrototypeOf"; "propertyIsEnumerable";
   "toLocaleString"; "toString"; "valueOf"; "__proto__";
   "__defineGetter__"; "__defineSetter__";
   "__lookupGetter__"; "__lookupSetter__"].

Definition inherited (key : string) : bool :=
  bool_decide (key ∈ prototypeNames).

(** What [obj[key]] evaluates to: the own value, a function or object found
    on the prototype, or [undefined]. *)
Inductive Read (V : Type) : Type :=
| Own (v : V)
| Inherited
| Undefined.

Arguments Own {V} v.
Arguments Inherited {V}.
Arguments Undefined {V}.

Definition get {V} (obj : gmap string V) (key : string) : Read V :=
  match obj !! key with
  | Some v => Own v
  | None => if inherited key then Inherited else Undefined
  end.

(** [!obj[key]] on a table of numbers: functions and objects are truthy,
    [undefined] is falsy. *)
Definition falsy (r : Read float) : bool :=
  match r with
  | Own x => JsNumber.falsy x
  | Inherited => false
  | Undefined => true
  end.

(** The conversion [/] and [*] apply to an operand: a function, the
    prototype object and [undefined] all convert to [NaN]. *)
Definition toNumber (r : Read float) : float :=
  match r with
  | Own x => x
  | Inherited | Undefined => nan
  end.

(** Three upper-case letters, the form of a currency code. *)
Definition upperCase (c : ascii) : bool :=
  (65 <=? nat_of_ascii c)%nat && (nat_of_ascii c <=? 90)%nat.

Definition currencyCode (s : string) : bool :=
  match s with
  | String a (String b (String c EmptyString)) =>
      upperCase a && upperCase b && upperCase c
  | _ => false
  end.

End JsObject.

(** [deriveRatesFromFallback] and [rate] with every read of a table going
    through the prototype.  [Client.deriveRatesFromFallback] and
    [Client.rate] read own properties only; the two agree whenever the
    codes read are own properties or are no property names of the
    prototype. *)

Module PrototypeReads.
Import JsObject.

Definition deriveRatesFromFallback (base : string) : gmap string float :=
  if falsy (get Client.baseRates base) then Client.baseRates
  else
    let usdPerBase := (1 / toNumber (get Client.baseRates base))%float in
    let entries :=
      (fun '(code, rate) => (code, (usdPerBase * rate)%float))
        <$> Client.entriesOf Client.baseRates in
    Client.fromEntries entries.

Definition rate (rates : gmap string float)
    (fromCurrency toCurrency : string) : float :=
  if falsy (get rates fromCurrency) || falsy (get rates toCurrency)
  then 1%float
  else (toNumber (get rates toCurrency) / toNumber (get rates fromCurrency))%float.

End PrototypeReads.

(** * Properties *)

(** ** Binary64 facts behind the cross rate *)

Section NumberFacts.
Import JsNumber.
Open Scope float_scope.

(** The falsy numbers are [0], [-0] and [NaN]; [Infinity] is truthy and
    positive. *)
Example falsy_numbers :
  falsy 0 = true /\ falsy (-0) = true /\ falsy nan = true /\
  falsy infinity = false /\ positive infinity = true /\ falsy 0.92 = false.
Proof. repeat split; vm_compute; reflexivity. Qed.

(** Shape of the specification-level value behind a primitive float. *)
Lemma is_nan_SF x : is_nan x = true -> Prim2SF x = S754_nan.
Proof.
  unfold is_nan. rewrite FloatAxioms.eqb_spec.
  destruct (Prim2SF x) as [s|s| |s m e]; try reflexivity;
    unfold SFeqb, SFcompare.
  - discriminate.
  - destruct s; discriminate.
  - rewrite Z.compare_refl, Pos.compare_cont_refl. destruct s; discriminate.
Qed.

Lemma SF_nan_is_nan x : Prim2SF x = S754_nan -> is_nan x = true.
Proof.
  intros H. unfold is_nan. rewrite FloatAxioms.eqb_spec, H. reflexivity.
Qed.

Lemma is_zero_SF x : is_zero x = true <-> exists s, Prim2SF x = S754_zero s.
Proof.
  unfold is_zero. rewrite FloatAxioms.eqb_spec.
  replace (Prim2SF PrimFloat.zero) with (S754_zero false) by reflexivity.
  destruct (Prim2SF x) as [s|s| |s m e]; unfold SFeqb, SFcompare; split;
    try (intros _; eauto; fail); try discriminate;
    try (intros [s' Hs']; discriminate).
  - destruct s; discriminate.
  - destruct s; discriminate.
Qed.

Lemma is_infinity_SF x :
  is_infinity x = true <-> exists s, Prim2SF x = S754_infinity s.
Proof.
  unfold is_infinity. rewrite FloatAxioms.eqb_spec, FloatAxioms.abs_spec.
  replace (Prim2SF infinity) with (S754_infinity false) by reflexivity.
  destruct (Prim2SF x) as [s|s| |s m e]; unfold SFeqb, SFcompare, SFabs;
    split; try (intros _; eauto; fail); try discriminate;
    try (intros [s' Hs']; discriminate).
Qed.

(** A finite non-zero number is a signed mantissa and exponent. *)
Lemma finite_nonzero_SF x :
  is_finite x = true -> is_zero x = false ->
  exists s m e, Prim2SF x = S754_finite s m e.
Proof.
  unfold is_finite. intros Hfin Hz.
  destruct (Prim2SF x) as [s|s| |s m e] eqn:E.
  - assert (is_zero x = true) by (apply is_zero_SF; eauto). congruence.
  - assert (is_infinity x = true) by (apply is_infinity_SF; eauto).
    rewrite H, orb_true_r in Hfin. discriminate.
  - rewrite (SF_nan_is_nan _ E) in Hfin. discriminate.
  - eauto.
Qed.

Lemma positive_SF x :
  JsNumber.positive x = true ->
  Prim2SF x = S754_infinity false \/ exists m e, Prim2SF x = S754_finite false m e.
Proof.
  unfold positive. rewrite FloatAxioms.ltb_spec.
  replace (Prim2SF 0) with (S754_zero false) by reflexivity.
  destruct (Prim2SF x) as [s|s| |s m e]; unfold SFltb, SFcompare;
    try discriminate.
  - destruct s; [discriminate | auto].
  - destruct s; [discriminate | eauto].
Qed.

(** Positive numbers are truthy. *)
Lemma positive_not_falsy x : positive x = true -> falsy x = false.
Proof.
  intros Hp. unfold falsy. apply orb_false_intro.
  - destruct (is_zero x) eqn:Hz; [|reflexivity].
    apply is_zero_SF in Hz as [s Hs].
    destruct (positive_SF _ Hp) as [H | (m & e & H)]; congruence.
  - destruct (is_nan x) eqn:Hn; [|reflexivity].
    apply is_nan_SF in Hn.
    destruct (positive_SF _ Hp) as [H | (m & e & H)]; congruence.
Qed.

(** The quotient of a mantissa by itself, before rounding: [2^53] at
    exponent [-53], exactly. *)
Lemma SFdiv_core_self m e :
  SFdiv_core_binary prec emax (Zpos m) e (Zpos m) e
  = ((2 ^ 53)%Z, (-53)%Z, loc_Exact).
Proof.
  unfold SFdiv_core_binary.
  rewrite !Z.sub_diag.
  replace (Z.min (fexp prec emax 0) 0) with (-53)%Z by reflexivity.
  change (0 - -53)%Z with 53%Z. cbv iota beta.
  rewrite Z.shiftl_mul_pow2 by lia.
  destruct (Z.div_eucl (Z.pos m * 2 ^ 53) (Z.pos m)) as [q r] eqn:E.
  assert (Hq : q = (Z.pos m * 2 ^ 53 / Z.pos m)%Z)
    by (unfold Z.div; rewrite E; reflexivity).
  assert (Hr : r = ((Z.pos m * 2 ^ 53) mod Z.pos m)%Z)
    by (unfold Z.modulo; rewrite E; reflexivity).
  rewrite (Z.mul_comm (Z.pos m)) in Hq, Hr.
  rewrite Z.div_mul in Hq by lia. rewrite Z.mod_mul in Hr by lia.
  subst q r. unfold new_location, new_location_even, new_location_odd.
  destruct (Z.even (Z.pos m)); reflexivity.
Qed.

(** [x / x] is exactly [1] for every finite non-zero [x], subnormal
    numbers included. *)
Lemma div_self x :
  is_finite x = true -> is_zero x = false -> x / x = 1.
Proof.
  intros Hfin Hz.
  destruct (finite_nonzero_SF x Hfin Hz) as (s & m & e & E).
  apply Prim2SF_inj. rewrite FloatAxioms.div_spec, E.
  unfold SF64div, SFdiv. rewrite SFdiv_core_self.
  destruct s; vm_compute; reflexivity.
Qed.

(** [Infinity / Infinity] is [NaN], which is no number at all. *)
Lemma div_infinity_self : infinity / infinity <> 1.
Proof.
  intros H. apply (f_equal is_nan) in H. vm_compute in H. discriminate.
Qed.

End NumberFacts.

(** ** The cross rate *)

Section CrossRate.
Import Client.
Open Scope float_scope.

Implicit Types (rates : gmap string float) (src tgt code : string).

(** [rate] is [1] unless it divides, and then it is the quotient of the
    operands. *)
Lemma rate_unfold rates src tgt :
  rate rates src tgt =
  match rateOperands rates src tgt with
  | None => 1
  | Some (t, f) => t / f
  end.
Proof. reflexivity. Qed.


Lemma rateOperands_truthy rates src tgt a b :
  rates !! src = Some a -> rates !! tgt = Some b ->
  JsNumber.falsy a = false -> JsNumber.falsy b = false ->
  rateOperands rates src tgt = Some (b, a).
Proof.
  intros Ha Hb Hfa Hfb. unfold rateOperands. rewrite Ha, Hb, Hfa, Hfb.
  reflexivity.
Qed.

(** C1, with the side condition it needs.  For every rate table and every
    pair of codes both present with positive values, the cross rate is
    [table[target] / table[source]]; from a code to itself it is exactly [1]
    when the value is moreover finite. *)
Theorem cross_rate_present rates src tgt a b :
  rates !! src = Some a -> rates !! tgt = Some b ->
  JsNumber.positive a = true -> JsNumber.positive b = true ->
  rate rates src tgt = b / a /\
  (src = tgt -> is_finite a = true -> rate rates src tgt = 1).
Proof.
  intros Ha Hb Hpa Hpb.
  assert (Hrate : rate rates src tgt = b / a).
  { rewrite rate_unfold,
      (rateOperands_truthy _ _ _ _ _ Ha Hb
         (positive_not_falsy _ Hpa) (positive_not_falsy _ Hpb)).
    reflexivity. }
  split; [exact Hrate|].
  intros -> Hfin. rewrite Hrate.
  assert (b = a) as -> by congruence.
  apply div_self; [exact Hfin|].
  pose proof (positive_not_falsy _ Hpa) as Hf. unfold JsNumber.falsy in Hf.
  apply orb_false_elim in Hf. tauto.
Qed.

(** On the built-in table: euro to yen, and euro to euro. *)
Lemma cross_rate_present_witness :
  rate baseRates "EUR" "JPY" = 155.8 / 0.92 /\
  rate baseRates "EUR" "EUR" = 1.
Proof.
  split.
  - apply (cross_rate_present baseRates "EUR" "JPY" 0.92 155.8);
      vm_compute; reflexivity.
  - apply (cross_rate_present baseRates "EUR" "EUR" 0.92 0.92);
      vm_compute; reflexivity.
Defined.

(** C1 as stated fails at a table whose entry is [Infinity], a positive
    number for which [rate] returns [NaN]. *)
Lemma cross_rate_self_infinity :
  let table : gmap string float := {["USD" := infinity]} in
  table !! "USD" = Some infinity /\
  JsNumber.positive infinity = true /\
  rate table "USD" "USD" <> 1.
Proof.
  repeat split; try (vm_compute; reflexivity).
  intros H. apply div_infinity_self. exact H.
Qed.

(** An own property shadows the prototype. *)
Lemma get_own rates code v :
  rates !! code = Some v -> JsObject.get rates code = JsObject.Own v.
Proof. intros H. unfold JsObject.get. rewrite H. reflexivity. Qed.

(** A name that is neither an own property nor one of the prototype reads
    as [undefined]. *)
Lemma get_undefined rates code :
  rates !! code = None -> JsObject.inherited code = false ->
  JsObject.get rates code = JsObject.Undefined.
Proof. intros H Hi. unfold JsObject.get. rewrite H, Hi. reflexivity. Qed.

(** A name of the prototype that is no own property reads as the function
    or object found there. *)
Lemma get_inherited rates code :
  rates !! code = None -> JsObject.inherited code = true ->
  JsObject.get rates code = JsObject.Inherited.
Proof. intros H Hi. unfold JsObject.get. rewrite H, Hi. reflexivity. Qed.

(** Where each code is an own property of the table or is no name of the
    prototype, [rate] is the same with own-property reads. *)
Lemma rate_reads_agree rates src tgt :
  is_Some (rates !! src) \/ JsObject.inherited src = false ->
  is_Some (rates !! tgt) \/ JsObject.inherited tgt = false ->
  PrototypeReads.rate rates src tgt = rate rates src tgt.
Proof.
  intros Hsrc Htgt. unfold PrototypeReads.rate. rewrite rate_unfold.
  unfold rateOperands.
  destruct (rates !! src) as [f|] eqn:Ef.
  - rewrite (get_own _ _ _ Ef).
    destruct (rates !! tgt) as [t|] eqn:Et.
    + rewrite (get_own _ _ _ Et). cbn [JsObject.falsy JsObject.toNumber].
      destruct (JsNumber.falsy f || JsNumber.falsy t); reflexivity.
    + destruct Htgt as [[? [=]] | Hi].
      rewrite (get_undefined _ _ Et Hi). cbn [JsObject.falsy].
      rewrite orb_true_r. reflexivity.
  - destruct Hsrc as [[? [=]] | Hi].
    rewrite (get_undefined _ _ Ef Hi). reflexivity.
Qed.

(** No currency code is a name of the prototype. *)
Lemma currencyCode_not_inherited code :
  JsObject.currencyCode code = true -> JsObject.inherited code = false.
Proof.
  intros Hcode. unfold JsObject.inherited.
  apply bool_decide_eq_false_2. intros Hin.
  unfold JsObject.prototypeNames in Hin.
  repeat (apply elem_of_cons in Hin as [-> | Hin]; [discriminate Hcode|]).
  apply elem_of_nil in Hin. contradiction.
Qed.

(** When the source code is a name of the prototype and no own property,
    and the target entry is truthy, [rate] divides by [NaN]. *)
Lemma rate_inherited_source rates src tgt t :
  rates !! src = None -> JsObject.inherited src = true ->
  rates !! tgt = Some t -> JsNumber.falsy t = false ->
  is_nan (PrototypeReads.rate rates src tgt) = true.
Proof.
  intros Ef Hi Et Ht. unfold PrototypeReads.rate.
  rewrite (get_inherited _ _ Ef Hi), (get_own _ _ _ Et).
  cbn [JsObject.falsy JsObject.toNumber]. rewrite Ht. cbn [orb].
  apply SF_nan_is_nan. rewrite FloatAxioms.div_spec.
  unfold SF64div, SFdiv. destruct (Prim2SF t); reflexivity.
Qed.

(** C9 as stated fails at the code ["constructor"], which is absent from
    the built-in table: the read finds the function of the prototype, which
    is truthy, [rate] divides by it and returns [NaN]. *)
Lemma cross_rate_absent_constructor :
  baseRates !! "constructor" = None /\
  is_nan (PrototypeReads.rate baseRates "constructor" "USD") = true /\
  PrototypeReads.rate baseRates "constructor" "USD" <> 1.
Proof.
  split; [vm_compute; reflexivity|].
  split; [vm_compute; reflexivity|].
  intros H. apply (f_equal is_nan) in H. vm_compute in H. discriminate.
Qed.

(** C9, with the side condition it needs.  When the source or the target
    code is absent from the table and is no property name of
    [Object.prototype], the cross rate is exactly [1]. *)
Theorem cross_rate_absent rates src tgt :
  (rates !! src = None /\ JsObject.inherited src = false) \/
  (rates !! tgt = None /\ JsObject.inherited tgt = false) ->
  PrototypeReads.rate rates src tgt = 1.
Proof.
  intros H. unfold PrototypeReads.rate.
  destruct H as [[Ef Hi] | [Et Hi]].
  - rewrite (get_undefined _ _ Ef Hi). reflexivity.
  - rewrite (get_undefined _ _ Et Hi). cbn [JsObject.falsy].
    rewrite orb_true_r. reflexivity.
Qed.

(** Gold is not in the built-in table. *)
Lemma cross_rate_absent_witness : PrototypeReads.rate baseRates "EUR" "XAU" = 1.
Proof.
  apply (cross_rate_absent baseRates "EUR" "XAU").
  right. split; vm_compute; reflexivity.
Defined.



End CrossRate.

(** ** Objects built from entries *)

Section Entries.
Import Client.
Context {V : Type}.
Implicit Types (entries : list (string * V)) (key : string).

Lemma fromEntries_snoc entries key (v : V) :
  fromEntries (entries ++ [(key, v)]) = <[key := v]> (fromEntries entries).
Proof. unfold fromEntries. rewrite foldl_app. reflexivity. Qed.

(** Last entry wins: [fromEntries] reads the entries from the back. *)
Lemma fromEntries_reverse entries :
  fromEntries entries = list_to_map (reverse entries).
Proof.
  induction entries as [|[key v] entries IH] using rev_ind; [reflexivity|].
  rewrite fromEntries_snoc, reverse_snoc, list_to_map_cons, IH. reflexivity.
Qed.

Lemma fromEntries_lookup_Some entries key (v : V) :
  fromEntries entries !! key = Some v -> (key, v) ∈ entries.
Proof.
  rewrite fromEntries_reverse. intros H.
  apply elem_of_list_to_map_2 in H. rewrite elem_of_reverse in H. exact H.
Qed.

Lemma fromEntries_lookup_None entries key :
  fromEntries entries !! key = None <-> key ∉ entries.*1.
Proof.
  rewrite fromEntries_reverse, <- not_elem_of_list_to_map, fmap_reverse.
  by rewrite elem_of_reverse.
Qed.

(** With distinct keys the order of the entries does not matter. *)
Lemma fromEntries_NoDup entries :
  NoDup (entries.*1) -> fromEntries entries = list_to_map entries.
Proof.
  intros Hnd. rewrite fromEntries_reverse. apply list_to_map_proper.
  - rewrite fmap_reverse, reverse_Permutation. exact Hnd.
  - apply reverse_Permutation.
Qed.

Lemma fromEntries_lookup_NoDup entries key (v : V) :
  NoDup (entries.*1) -> (key, v) ∈ entries -> fromEntries entries !! key = Some v.
Proof.
  intros Hnd Hin. rewrite fromEntries_NoDup by done.
  by apply elem_of_list_to_map_1.
Qed.

End Entries.

(** [Object.fromEntries(Object.entries(obj).map(([k, v]) => [k, g(v)]))]
    maps [g] over the values of [obj]. *)
Lemma fromEntries_map_entries {V W : Type} (g : V -> W) (obj : gmap string V) :
  Client.fromEntries ((fun '(k, v) => (k, g v)) <$> Client.entriesOf obj) = g <$> obj.
Proof.
  unfold Client.entriesOf.
  assert (Hmap : (fun '(k, v) => (k, g v)) <$> map_to_list obj
                 = prod_map id g <$> map_to_list obj).
  { apply list_fmap_ext. intros _ [k v] _. reflexivity. }
  rewrite Hmap, fromEntries_NoDup.
  - rewrite list_to_map_fmap, list_to_map_to_list. reflexivity.
  - rewrite <- list_fmap_compose.
    assert (Hfst : (fst ∘ prod_map id g) <$> map_to_list obj
                   = (map_to_list obj).*1).
    { apply list_fmap_ext. intros _ [k v] _. reflexivity. }
    rewrite Hfst. apply NoDup_fst_map_to_list.
Qed.

(** ** The fallback rate table *)

Section FallbackRates.
Import Client.
Open Scope float_scope.

(** Each built-in rate is truthy, and its inverse times itself rounds to
    exactly [1] in binary64. *)
Lemma baseRatesLiteral_inverse :
  Forall (fun e => JsNumber.falsy e.2 = false /\ (1 / e.2) * e.2 = 1)
         baseRatesLiteral.
Proof. repeat constructor; vm_compute; reflexivity. Qed.

Lemma baseRates_lookup_literal base b :
  baseRates !! base = Some b -> (base, b) ∈ baseRatesLiteral.
Proof. apply fromEntries_lookup_Some. Qed.

Lemma baseRates_truthy base b :
  baseRates !! base = Some b ->
  JsNumber.falsy b = false /\ (1 / b) * b = 1.
Proof.
  intros H%baseRates_lookup_literal.
  pose proof baseRatesLiteral_inverse as Hall.
  rewrite Forall_forall in Hall. exact (Hall _ H).
Qed.

(** For a base of the built-in table the result is the table with every
    value multiplied by [usdPerBase]. *)
Lemma deriveRatesFromFallback_key base b :
  baseRates !! base = Some b ->
  deriveRatesFromFallback base = (fun r => (1 / b) * r) <$> baseRates.
Proof.
  intros H. unfold deriveRatesFromFallback. rewrite H.
  destruct (baseRates_truthy _ _ H) as [-> _].
  apply fromEntries_map_entries.
Qed.

(** For any other base the table comes back unchanged. *)
Lemma deriveRatesFromFallback_other base :
  baseRates !! base = None -> deriveRatesFromFallback base = baseRates.
Proof. intros H. unfold deriveRatesFromFallback. rewrite H. reflexivity. Qed.

(** C3.  For every base that is a key of the built-in table, with
    [usdPerBase = 1 / builtIn[base]], [deriveRatesFromFallback(base)] maps
    every code of the table to [usdPerBase * builtIn[code]], has no other
    code, and maps the base itself to exactly [1]. *)
Theorem derive_fallback_rescales base b :
  baseRates !! base = Some b ->
  (forall code r,
     baseRates !! code = Some r ->
     deriveRatesFromFallback base !! code = Some ((1 / b) * r)) /\
  (forall code,
     baseRates !! code = None -> deriveRatesFromFallback base !! code = None) /\
  deriveRatesFromFallback base !! base = Some 1.
Proof.
  intros Hb. rewrite (deriveRatesFromFallback_key _ _ Hb).
  repeat split.
  - intros code r Hr. rewrite lookup_fmap, Hr. reflexivity.
  - intros code Hr. rewrite lookup_fmap, Hr. reflexivity.
  - rewrite lookup_fmap, Hb. simpl. f_equal.
    apply (baseRates_truthy _ _ Hb).
Qed.

(** The built-in table rebased on the yen. *)
Lemma derive_fallback_rescales_witness :
  (forall code r,
     baseRates !! code = Some r ->
     deriveRatesFromFallback "JPY" !! code = Some ((1 / 155.8) * r)) /\
  (forall code,
     baseRates !! code = None -> deriveRatesFromFallback "JPY" !! code = None) /\
  deriveRatesFromFallback "JPY" !! "JPY" = Some 1.
Proof.
  apply (derive_fallback_rescales "JPY" 155.8). vm_compute. reflexivity.
Defined.

(** The table the client starts from and falls back to has the US dollar
    as its numeraire. *)
Lemma fallback_usd_numeraire : deriveRatesFromFallback "USD" !! "USD" = Some 1.
Proof.
  assert (Hb : baseRates !! "USD" = Some 1) by (vm_compute; reflexivity).
  rewrite (deriveRatesFromFallback_key _ _ Hb), lookup_fmap, Hb.
  reflexivity.
Qed.

End FallbackRates.

(** ** The fetch cycle *)

Section FetchCycle.
Import Effects Client.

Implicit Types (net : Network) (s : AppState) (w : World).

Ltac eff_unfold :=
  cbv [loadSymbolsAndRates installFallback resetToFallback fetchAndApply
       fetch bodyOf mbind eff_bind bind mret eff_ret ret await promiseAll throw
       modify tryCatchFinally tryCatch
       setCurrencies setCurrencyNames setRates setUsingFallback setLoading
       app requests currencies currencyNames rates usingFallback loading
       fst snd].

(** The try block, step by step, is its closed form. *)
Lemma fetchAndApply_unfold net codesUrl ratesUrl w :
  fetchAndApply net codesUrl ratesUrl w =
  let sent := (requests w ++ [codesUrl]) ++ [ratesUrl] in
  match awaited net codesUrl ratesUrl with
  | Fulfilled (codesRes, ratesRes, codesJson, ratesJson) =>
      (Normal tt,
       mkWorld (applied (app w) codesRes ratesRes codesJson ratesJson) sent)
  | Rejected => (Abrupt, mkWorld (app w) sent)
  end.
Proof.
  destruct w as [s reqs]. unfold awaited, bodyPromise, applied, promiseAll.
  eff_unfold.
  destruct (net codesUrl) as [[okc jc]|], (net ratesUrl) as [[okr jr]|];
    try reflexivity.
  destruct okc, jc as [cj|], okr, jr as [rj|]; cbn [ok json]; try reflexivity;
    match goal with
    | |- context [codesSuccessOf ?r ?j] =>
        destruct (codesSuccessOf r j);
        match goal with
        | |- context [ratesSuccessOf ?r' ?j'] => destruct (ratesSuccessOf r' j')
        end
    end; reflexivity.
Qed.

(** Whatever the try block did before it threw, the catch and finally
    blocks leave the built-in tables, the fallback flag and no loading. *)
Lemma catch_finally_resets (body : Eff World unit) w w' :
  body w = (Abrupt, w') ->
  tryCatchFinally body resetToFallback (setLoading false) w
  = (Normal tt, mkWorld fallbackState (requests w')).
Proof.
  intros H. unfold tryCatchFinally, tryCatch. rewrite H. reflexivity.
Qed.

(** A cycle without a backend address. *)
Lemma runCycle_unconfigured apiBaseUrl net s :
  configured apiBaseUrl = None ->
  runCycle apiBaseUrl net s = mkWorld fallbackState [].
Proof.
  intros H. unfold runCycle, loadSymbolsAndRates.
  unfold mbind, eff_bind, bind. cbn [setLoading modify]. rewrite H.
  reflexivity.
Qed.

(** A cycle with a backend address: two requests, then either the applied
    results or the reset, and the loading flag cleared on both paths. *)
Lemma runCycle_configured apiBaseUrl url net s :
  configured apiBaseUrl = Some url ->
  runCycle apiBaseUrl net s =
  mkWorld
    match awaited net (codesUrlOf url) (ratesUrlOf url) with
    | Fulfilled (codesRes, ratesRes, codesJson, ratesJson) =>
        applied
          {| currencies := currencies s; currencyNames := currencyNames s;
             rates := rates s; usingFallback := usingFallback s;
             loading := false |}
          codesRes ratesRes codesJson ratesJson
    | Rejected => fallbackState
    end
    [codesUrlOf url; ratesUrlOf url].
Proof.
  intros H. unfold runCycle, loadSymbolsAndRates.
  unfold mbind at 1. unfold eff_bind, bind. cbn [setLoading modify]. rewrite H.
  cbv zeta. unfold tryCatchFinally, tryCatch. rewrite fetchAndApply_unfold.
  destruct (awaited net (codesUrlOf url) (ratesUrlOf url))
    as [[[[codesRes ratesRes] codesJson] ratesJson]|]; reflexivity.
Qed.

(** The cycle itself never throws: whatever the network does, the promise
    of [loadSymbolsAndRates] is fulfilled. *)
Lemma cycle_never_throws apiBaseUrl net w :
  (loadSymbolsAndRates apiBaseUrl net w).1 = Normal tt.
Proof.
  unfold loadSymbolsAndRates. unfold mbind at 1. unfold eff_bind, bind.
  cbn [setLoading modify].
  destruct (configured apiBaseUrl) as [url|]; [|reflexivity].
  cbv zeta. unfold tryCatchFinally, tryCatch. rewrite fetchAndApply_unfold.
  destruct (awaited net (codesUrlOf url) (ratesUrlOf url))
    as [[[[codesRes ratesRes] codesJson] ratesJson]|]; reflexivity.
Qed.

(** When both sub-fetches succeed the cycle ends live, with the catalog and
    the table of the responses. *)
Lemma both_applied_live apiBaseUrl url net s codesRes ratesRes codesJson ratesJson :
  configured apiBaseUrl = Some url ->
  awaited net (codesUrlOf url) (ratesUrlOf url)
  = Fulfilled (codesRes, ratesRes, codesJson, ratesJson) ->
  codesSuccessOf codesRes codesJson = true ->
  ratesSuccessOf ratesRes ratesJson = true ->
  app (runCycle apiBaseUrl net s) =
  {| currencies := sortedCodes (supportedCodesOf codesJson);
     currencyNames := fromEntries (supportedCodesOf codesJson);
     rates := <[baseCodeOf ratesJson := 1%float]> (conversionRatesOf ratesJson);
     usingFallback := false;
     loading := false |} /\
  freshness (app (runCycle apiBaseUrl net s)) = StatusLive.
Proof.
  intros Hcfg Hawait Hcs Hrs.
  rewrite (runCycle_configured _ _ _ _ Hcfg), Hawait. cbn [app].
  unfold applied, freshness. rewrite Hcs, Hrs. split; reflexivity.
Qed.

(** The catalog of a successful codes response: the codes in order, each
    one once per entry of the response. *)
Lemma sortedCodes_Sorted pairs : Sorted String.le (sortedCodes pairs).
Proof. apply (Sorted_merge_sort String.le). Qed.

Lemma sortedCodes_Permutation pairs : sortedCodes pairs ≡ₚ pairs.*1.
Proof. apply (merge_sort_Permutation String.le). Qed.

(** The built-in catalog names exactly the seven built-in codes. *)
Lemma fallbackNames_codes code :
  is_Some (fallbackNames !! code) <-> code ∈ fallbackCurrencies.
Proof.
  split.
  - intros [name H]. apply fromEntries_lookup_Some in H.
    apply (list_elem_of_fmap_2 fst) in H. exact H.
  - intros H. apply not_eq_None_Some. intros Hnone.
    apply fromEntries_lookup_None in Hnone. exact (Hnone H).
Qed.

(** The numeraire is the US dollar unless the cycle installed the table of
    a successful rates response, whose base code it then is. *)
Lemma cycleNumeraire_cases apiBaseUrl net s :
  (cycleNumeraire apiBaseUrl net = "USD" /\
   rates (app (runCycle apiBaseUrl net s)) = deriveRatesFromFallback "USD") \/
  (exists url ratesRes ratesJson,
     configured apiBaseUrl = Some url /\
     net (ratesUrlOf url) = Fulfilled ratesRes /\
     bodyPromise ratesRes = Fulfilled ratesJson /\
     ratesSuccessOf ratesRes ratesJson = true /\
     cycleNumeraire apiBaseUrl net = baseCodeOf ratesJson /\
     rates (app (runCycle apiBaseUrl net s))
     = <[baseCodeOf ratesJson := 1%float]> (conversionRatesOf ratesJson)).
Proof.
  unfold cycleNumeraire.
  destruct (configured apiBaseUrl) as [url|] eqn:Hcfg.
  - rewrite (runCycle_configured _ _ _ _ Hcfg). cbn [app].
    unfold awaited, promiseAll.
    destruct (net (codesUrlOf url)) as [codesRes|];
      [|left; split; reflexivity].
    destruct (net (ratesUrlOf url)) as [ratesRes|] eqn:Hrates;
      [|left; split; reflexivity].
    destruct (bodyPromise codesRes) as [codesJson|];
      [|left; split; reflexivity].
    destruct (bodyPromise ratesRes) as [ratesJson|] eqn:Hbody;
      [|left; split; reflexivity].
    unfold applied. cbn [rates].
    destruct (ratesSuccessOf ratesRes ratesJson) eqn:Hrs.
    + right. exists url, ratesRes, ratesJson. repeat split; assumption.
    + left. split; reflexivity.
  - left. rewrite (runCycle_unconfigured _ _ _ Hcfg). split; reflexivity.
Qed.

(** When the rates response names the base the client asked for, or names
    none, the numeraire is the US dollar. *)
Lemma baseCodeOf_usd body :
  body ≫= base_code = Some "USD" \/ JsString.truthy (body ≫= base_code) = false ->
  baseCodeOf body = "USD".
Proof.
  unfold baseCodeOf, JsString.orElse, JsString.truthy.
  destruct (body ≫= base_code) as [code|]; [|reflexivity].
  intros [[= ->] | H]; [reflexivity|].
  destruct (bool_decide (code = EmptyString)); [reflexivity | discriminate].
Qed.

(** C2.  After every fetch cycle, whichever way it ends (no backend
    address, both sub-fetches applied, one of them failed, or an exception),
    the rate table maps its numeraire to exactly [1]. *)
Theorem cycle_table_has_numeraire apiBaseUrl net s :
  rates (app (runCycle apiBaseUrl net s)) !! cycleNumeraire apiBaseUrl net
  = Some 1%float.
Proof.
  destruct (cycleNumeraire_cases apiBaseUrl net s)
    as [[-> ->] | (url & ratesRes & ratesJson & _ & _ & _ & _ & -> & ->)].
  - apply fallback_usd_numeraire.
  - apply lookup_insert_eq.
Qed.

(** C4.  When the try block of a cycle throws, the cycle ends with the
    built-in catalog and the built-in rate table, the status forced to
    fallback and the loading flag cleared; and the catch and finally blocks
    do so after any try block and from any state it has reached, so also
    when results of a sub-fetch had been applied before the exception. *)
Theorem exception_resets_both :
  (forall apiBaseUrl url net s w',
     configured apiBaseUrl = Some url ->
     (setLoading true;; fetchAndApply net (codesUrlOf url) (ratesUrlOf url))
       (mkWorld s []) = (Abrupt, w') ->
     app (runCycle apiBaseUrl net s) = fallbackState /\
     freshness (app (runCycle apiBaseUrl net s)) = StatusFallback /\
     loading (app (runCycle apiBaseUrl net s)) = false) /\
  (forall (body : Eff World unit) w w',
     body w = (Abrupt, w') ->
     let final := (tryCatchFinally body resetToFallback (setLoading false) w).2 in
     currencies (app final) = fallbackCurrencies /\
     currencyNames (app final) = fallbackNames /\
     rates (app final) = deriveRatesFromFallback "USD" /\
     freshness (app final) = StatusFallback /\
     loading (app final) = false).
Proof.
  split.
  - intros apiBaseUrl url net s w' Hcfg Hthrow.
    assert (Hrun : runCycle apiBaseUrl net s = mkWorld fallbackState (requests w')).
    { unfold runCycle, loadSymbolsAndRates. rewrite Hcfg. cbv zeta.
      revert Hthrow. unfold mbind, eff_bind, bind. cbn [setLoading modify].
      intros Hthrow.
      rewrite (catch_finally_resets _ _ _ Hthrow). reflexivity. }
    rewrite Hrun. repeat split.
  - intros body w w' Hthrow final. subst final.
    rewrite (catch_finally_resets _ _ _ Hthrow). repeat split.
Qed.

(** C6.  A cycle started without a backend address requests nothing and
    ends with the seven built-in codes and their names, the built-in rate
    table derived for the US dollar, status fallback and no loading. *)
Theorem cycle_without_backend apiBaseUrl net s :
  configured apiBaseUrl = None ->
  requests (runCycle apiBaseUrl net s) = [] /\
  currencies (app (runCycle apiBaseUrl net s))
    = ["USD"; "EUR"; "GBP"; "JPY"; "CAD"; "AUD"; "CHF"] /\
  currencyNames (app (runCycle apiBaseUrl net s)) = fallbackNames /\
  (forall code,
     is_Some (currencyNames (app (runCycle apiBaseUrl net s)) !! code) <->
     code ∈ currencies (app (runCycle apiBaseUrl net s))) /\
  rates (app (runCycle apiBaseUrl net s)) = deriveRatesFromFallback "USD" /\
  freshness (app (runCycle apiBaseUrl net s)) = StatusFallback /\
  loading (app (runCycle apiBaseUrl net s)) = false.
Proof.
  intros Hcfg. rewrite (runCycle_unconfigured _ _ _ Hcfg).
  repeat split; apply fallbackNames_codes.
Qed.

(** C5.  When the codes sub-fetch succeeds and the rates sub-fetch comes
    back without success (a non-2xx status, or a body whose [result] is not
    ["success"]), the cycle ends with the catalog of the response (its codes
    sorted, its names by code), the built-in rate table derived for the US
    dollar, and status fallback. *)
Theorem codes_applied_rates_fallback
    apiBaseUrl url net s codesRes codesBody pairs ratesRes :
  configured apiBaseUrl = Some url ->
  net (codesUrlOf url) = Fulfilled codesRes ->
  ok codesRes = true ->
  json codesRes = Fulfilled (Some codesBody) ->
  result codesBody = Some "success" ->
  supported_codes codesBody = Some pairs ->
  net (ratesUrlOf url) = Fulfilled ratesRes ->
  (ok ratesRes = false \/
   exists ratesJson,
     json ratesRes = Fulfilled ratesJson /\ resultIsSuccess ratesJson = false) ->
  currencies (app (runCycle apiBaseUrl net s)) = sortedCodes pairs /\
  currencyNames (app (runCycle apiBaseUrl net s)) = fromEntries pairs /\
  rates (app (runCycle apiBaseUrl net s)) = deriveRatesFromFallback "USD" /\
  freshness (app (runCycle apiBaseUrl net s)) = StatusFallback.
Proof.
  intros Hcfg Hcodes Hok Hjson Hresult Hpairs Hrates Hfail.
  rewrite (runCycle_configured _ _ _ _ Hcfg). cbn [app].
  assert (Hcs : codesSuccessOf codesRes (Some codesBody) = true).
  { unfold codesSuccessOf, resultIsSuccess, isArraySupportedCodes.
    rewrite Hok, Hresult, Hpairs. rewrite !bool_decide_eq_true_2; eauto. }
  assert (Hsc : supportedCodesOf (Some codesBody) = pairs).
  { unfold supportedCodesOf. cbn. rewrite Hpairs. reflexivity. }
  assert (Hawait : exists ratesJson,
             awaited net (codesUrlOf url) (ratesUrlOf url)
             = Fulfilled (codesRes, ratesRes, Some codesBody, ratesJson) /\
             ratesSuccessOf ratesRes ratesJson = false).
  { unfold awaited, bodyPromise, promiseAll, ratesSuccessOf.
    rewrite Hcodes, Hrates, Hok, Hjson.
    destruct Hfail as [Hnok | (ratesJson & Hrj & Hnot)].
    - rewrite Hnok. exists None. split; reflexivity.
    - destruct (ok ratesRes).
      + exists ratesJson. rewrite Hrj, Hnot. split; reflexivity.
      + exists None. split; reflexivity. }
  destruct Hawait as (ratesJson & -> & Hrs).
  unfold applied, freshness. cbn [currencies currencyNames rates usingFallback loading].
  rewrite Hcs, Hrs, Hsc. repeat split.
Qed.

(** A rates body that is no JSON after a good codes response, and a try
    block that throws after it has installed a catalog. *)
Lemma exception_resets_both_witness :
  app (runCycle (Some Samples.backend) Samples.ratesMalformed initialState)
  = fallbackState /\
  currencies
    (app (tryCatchFinally Samples.applyThenThrow resetToFallback
            (setLoading false) (mkWorld initialState [])).2)
  = fallbackCurrencies.
Proof.
  destruct exception_resets_both as [Hcycle Hany]. split.
  - apply (Hcycle (Some Samples.backend) Samples.backend Samples.ratesMalformed
             initialState
             (mkWorld
                {| currencies := fallbackCurrencies;
                   currencyNames := fallbackNames;
                   rates := deriveRatesFromFallback "USD";
                   usingFallback := false;
                   loading := true |}
                ["https://proxy.example/codes";
                 "https://proxy.example/rates?base=USD"])).
    + reflexivity.
    + vm_compute. reflexivity.
  - apply (Hany Samples.applyThenThrow (mkWorld initialState [])
             (mkWorld
                {| currencies := ["XAU"];
                   currencyNames := fallbackNames;
                   rates := deriveRatesFromFallback "USD";
                   usingFallback := false;
                   loading := true |}
                [])).
    vm_compute. reflexivity.
Defined.

(** No backend address at all. *)
Lemma cycle_without_backend_witness :
  requests (runCycle None Samples.ratesFail initialState) = [] /\
  freshness (app (runCycle None Samples.ratesFail initialState)) = StatusFallback.
Proof.
  pose proof (cycle_without_backend None Samples.ratesFail initialState) as H.
  destruct H as (Hreq & _ & _ & _ & _ & Hfresh & _); [reflexivity|].
  split; [exact Hreq | exact Hfresh].
Defined.

(** Three codes from the backend, and a rates response with
    [result: "error"]. *)
Lemma codes_applied_rates_fallback_witness :
  currencies (app (runCycle (Some Samples.backend) Samples.ratesFail initialState))
  = ["CHF"; "EUR"; "USD"] /\
  rates (app (runCycle (Some Samples.backend) Samples.ratesFail initialState))
  = deriveRatesFromFallback "USD" /\
  freshness (app (runCycle (Some Samples.backend) Samples.ratesFail initialState))
  = StatusFallback.
Proof.
  pose proof (codes_applied_rates_fallback
                (Some Samples.backend) Samples.backend Samples.ratesFail
                initialState Samples.codesOk Samples.codesBody
                [("USD", "United States Dollar"); ("EUR", "Euro"); ("CHF", "Swiss Franc")]
                {| ok := true; json := Fulfilled (Some Samples.ratesErrorBody) |})
    as H.
  destruct H as (Hcodes & _ & Hrates & Hfresh); try reflexivity.
  - right. exists (Some Samples.ratesErrorBody). split; reflexivity.
  - split; [exact Hcodes | split; [exact Hrates | exact Hfresh]].
Defined.

End FetchCycle.

(** ** The proxy *)

Section ProxyFacts.
Import Effects Proxy.

Variable API_KEY : option string.
Variable upstream : Upstream.
Variables toUpperCase encodeURIComponent : string -> string.

Abbreviation serve := (Proxy.serve API_KEY upstream toUpperCase encodeURIComponent).
Abbreviation upstreamUrl := (Proxy.upstreamUrl API_KEY toUpperCase encodeURIComponent).

Ltac proxy_unfold :=
  cbv [Proxy.serve handle getCodes getRates ensureApiKey relay Proxy.fetch
       mbind eff_bind bind mret eff_ret ret await throw modify tryCatch
       resStatus resJson freshWorld res outbound statusCode body fst snd].

(** What [relay] answers, by what the provider did. *)
Lemma relay_unfold url failure :
  (relay upstream url failure freshWorld).2 =
  mkProxyWorld
    match upstream url with
    | Fulfilled response =>
        match json response with
        | Fulfilled parsed =>
            if negb (ok response) || negb (resultIsSuccess parsed)
            then upstreamErrorReply parsed
            else mkReply 200 (Some parsed)
        | Rejected => failureReply failure
        end
    | Rejected => failureReply failure
    end
    [url].
Proof.
  unfold upstreamErrorReply, failureReply. proxy_unfold.
  destruct (upstream url) as [[okr [parsed|]]|]; cbn [ok json]; try reflexivity.
  destruct (negb okr || negb (resultIsSuccess parsed)); reflexivity.
Qed.

(** Without a credential a data route answers at once. *)
Lemma serve_without_key route :
  JsString.truthy API_KEY = false ->
  serve route = mkProxyWorld missingKeyReply [].
Proof.
  intros Hkey. unfold missingKeyReply. destruct route; proxy_unfold;
    rewrite Hkey; reflexivity.
Qed.

(** With a credential a data route relays one call to the provider. *)
Lemma serve_with_key route :
  JsString.truthy API_KEY = true ->
  serve route =
  (relay upstream (upstreamUrl route)
     match route with
     | RouteCodes => "Failed to fetch codes"
     | RouteRates _ => "Failed to fetch rates"
     end freshWorld).2.
Proof.
  intros Hkey. destruct route;
    unfold Proxy.serve, handle, getCodes, getRates, ensureApiKey;
    rewrite Hkey; reflexivity.
Qed.

(** A data route always sends its reply itself: no exception escapes the
    handler. *)
Lemma handle_never_throws route :
  (handle API_KEY upstream toUpperCase encodeURIComponent route freshWorld).1
  = Normal tt.
Proof.
  destruct route; proxy_unfold;
    (destruct (JsString.truthy API_KEY); [|reflexivity]);
    match goal with
    | |- context [upstream ?u] =>
        destruct (upstream u) as [[okr [parsed|]]|]; cbn [ok json];
        try reflexivity;
        destruct (negb okr || negb (resultIsSuccess parsed)); reflexivity
    end.
Qed.

(** C7.  Without an upstream credential, a request to [/codes] or [/rates]
    is answered with status 500 and an error body that names the missing
    key, and no call goes out to the provider. *)
Theorem missing_credential_500 route :
  JsString.truthy API_KEY = false ->
  statusCode (res (serve route)) = 500%Z /\
  body (res (serve route))
  = Some (JObject [("error", JString "Missing EXCHANGERATE_API_KEY on the backend")]) /\
  outbound (serve route) = [].
Proof.
  intros Hkey. rewrite (serve_without_key _ Hkey). repeat split.
Qed.

(** C8.  With a credential, when the provider's answer to the call of a
    data route has a body that parses as JSON but carries no success
    indicator (a non-2xx status, or a [result] other than ["success"]), the
    proxy answers with status 502 and the body [{ error, details }] whose
    [details] is the provider's body, after that one call. *)
Theorem upstream_error_502 route response parsed :
  JsString.truthy API_KEY = true ->
  upstream (upstreamUrl route) = Fulfilled response ->
  json response = Fulfilled parsed ->
  ok response = false \/ resultIsSuccess parsed = false ->
  statusCode (res (serve route)) = 502%Z /\
  body (res (serve route))
  = Some (JObject [("error", JString "Upstream error"); ("details", parsed)]) /\
  outbound (serve route) = [upstreamUrl route].
Proof.
  intros Hkey Hresp Hjson Hfail.
  rewrite (serve_with_key _ Hkey), relay_unfold.
  rewrite Hresp, Hjson.
  assert (negb (ok response) || negb (resultIsSuccess parsed) = true) as ->.
  { destruct Hfail as [-> | ->]; [reflexivity | apply orb_true_r]. }
  repeat split.
Qed.

End ProxyFacts.

Section ProxySamples.
Import Effects Proxy.

(** [/rates?base=eur] on a proxy without a key. *)
Lemma missing_credential_500_witness :
  statusCode (res (serve None Samples.rejectingUpstream id id (RouteRates (Some "eur"))))
  = 500%Z /\
  outbound (serve None Samples.rejectingUpstream id id (RouteRates (Some "eur"))) = [].
Proof.
  pose proof (missing_credential_500 None Samples.rejectingUpstream id id
                (RouteRates (Some "eur"))) as H.
  destruct H as (Hstatus & _ & Hout); [reflexivity|].
  split; [exact Hstatus | exact Hout].
Defined.

(** [/codes] when the provider rejects the key with a 403, and
    [/rates?base=XXX] when it answers 200 with an error in the body. *)
Lemma upstream_error_502_witness :
  (statusCode (res (serve (Some "k3y") Samples.rejectingUpstream id id RouteCodes))
   = 502%Z /\
   body (res (serve (Some "k3y") Samples.rejectingUpstream id id RouteCodes))
   = Some (JObject [("error", JString "Upstream error");
                    ("details", Samples.invalidKeyBody)]) /\
   outbound (serve (Some "k3y") Samples.rejectingUpstream id id RouteCodes)
   = ["https://v6.exchangerate-api.com/v6/k3y/codes"]) /\
  (statusCode (res (serve (Some "k3y") LiveSamples.refusingUpstream id id
                      (RouteRates (Some "XXX"))))
   = 502%Z /\
   body (res (serve (Some "k3y") LiveSamples.refusingUpstream id id
                (RouteRates (Some "XXX"))))
   = Some (JObject [("error", JString "Upstream error");
                    ("details", LiveSamples.unsupportedCodeBody)]) /\
   outbound (serve (Some "k3y") LiveSamples.refusingUpstream id id
               (RouteRates (Some "XXX")))
   = ["https://v6.exchangerate-api.com/v6/k3y/latest/XXX"]).
Proof.
  split.
  - apply (upstream_error_502 (Some "k3y") Samples.rejectingUpstream id id
             RouteCodes
             {| ok := false; json := Fulfilled Samples.invalidKeyBody |}
             Samples.invalidKeyBody).
    + reflexivity.
    + reflexivity.
    + reflexivity.
    + left. reflexivity.
  - apply (upstream_error_502 (Some "k3y") LiveSamples.refusingUpstream id id
             (RouteRates (Some "XXX"))
             {| ok := true; json := Fulfilled LiveSamples.unsupportedCodeBody |}
             LiveSamples.unsupportedCodeBody).
    + reflexivity.
    + reflexivity.
    + reflexivity.
    + right. reflexivity.
Defined.

End ProxySamples.

(** ** Amount fields and the keypad *)

Section AmountText.
Import Converter.

Implicit Types (s t value : string) (c : ascii).

Lemma append_String c s t : String c s +:+ t = String c (s +:+ t).
Proof. reflexivity. Qed.

Lemma append_empty t : EmptyString +:+ t = t.
Proof. reflexivity. Qed.

Ltac text_simpl :=
  rewrite ?append_String, ?append_empty;
  cbn [sanitizeNumber isClean digitsAndDots countDots String.length].

Lemma sanitizeNumber_app s t :
  sanitizeNumber (s +:+ t) = sanitizeNumber s +:+ sanitizeNumber t.
Proof.
  induction s as [|c s IH]; [reflexivity|].
  text_simpl. rewrite IH. destruct (allowedChar c); reflexivity.
Qed.

Lemma sanitizeNumber_isClean value : isClean (sanitizeNumber value) = true.
Proof.
  induction value as [|c value IH]; [reflexivity|].
  text_simpl. destruct (allowedChar c) eqn:Hc; [|exact IH].
  text_simpl. rewrite Hc. exact IH.
Qed.

Lemma sanitizeNumber_clean value :
  isClean value = true -> sanitizeNumber value = value.
Proof.
  induction value as [|c value IH]; [reflexivity|].
  text_simpl. intros [Hc Hrest]%andb_true_iff. rewrite Hc, (IH Hrest). reflexivity.
Qed.

Lemma sanitizeNumber_length value :
  (String.length (sanitizeNumber value) <= String.length value)%nat.
Proof.
  induction value as [|c value IH]; [reflexivity|].
  text_simpl. destruct (allowedChar c); cbn; lia.
Qed.

(** X1.  [sanitizeNumber] returns text made of digits, dots and commas
    only, leaves such text as it is (so that sanitizing twice is sanitizing
    once), never lengthens its input and distributes over concatenation. *)
Theorem sanitizeNumber_filters value t :
  isClean (sanitizeNumber value) = true /\
  (isClean value = true -> sanitizeNumber value = value) /\
  sanitizeNumber (sanitizeNumber value) = sanitizeNumber value /\
  (String.length (sanitizeNumber value) <= String.length value)%nat /\
  sanitizeNumber (value +:+ t) = sanitizeNumber value +:+ sanitizeNumber t.
Proof.
  repeat split.
  - apply sanitizeNumber_isClean.
  - apply sanitizeNumber_clean.
  - apply sanitizeNumber_clean, sanitizeNumber_isClean.
  - apply sanitizeNumber_length.
  - apply sanitizeNumber_app.
Qed.

(** Pasted text with a currency sign and letters. *)
Lemma sanitizeNumber_filters_witness :
  sanitizeNumber "1,5" = "1,5" /\ sanitizeNumber "$ 12.50 USD" = "12.50".
Proof.
  split.
  - destruct (sanitizeNumber_filters "1,5" EmptyString) as (_ & Hfix & _).
    apply Hfix. reflexivity.
  - reflexivity.
Defined.

Lemma digitsAndDots_isClean s : digitsAndDots s = true -> isClean s = true.
Proof.
  induction s as [|c s IH]; [reflexivity|].
  text_simpl. intros [Hc Hrest]%andb_true_iff. rewrite (IH Hrest), andb_true_r.
  unfold allowedChar. unfold isDigit in Hc.
  destruct (Ascii.leb "0" c && Ascii.leb c "9"); [reflexivity|].
  cbn in Hc |- *. rewrite Hc. reflexivity.
Qed.

Lemma digitsAndDots_app s t :
  digitsAndDots (s +:+ t) = digitsAndDots s && digitsAndDots t.
Proof.
  induction s as [|c s IH]; [reflexivity|].
  text_simpl. rewrite IH, andb_assoc. reflexivity.
Qed.

Lemma countDots_app s t : countDots (s +:+ t) = (countDots s + countDots t)%nat.
Proof.
  induction s as [|c s IH]; [reflexivity|]. text_simpl. rewrite IH. lia.
Qed.

Lemma digitsAndDots_dropLast s :
  digitsAndDots s = true -> digitsAndDots (dropLast s) = true.
Proof.
  induction s as [|c s IH]; [reflexivity|].
  text_simpl. intros [Hc Hrest]%andb_true_iff.
  destruct s as [|c' s']; [reflexivity|].
  change (digitsAndDots (String c (dropLast (String c' s'))) = true).
  cbn [digitsAndDots]. rewrite Hc, (IH Hrest). reflexivity.
Qed.

Lemma countDots_dropLast s : (countDots (dropLast s) <= countDots s)%nat.
Proof.
  induction s as [|c s IH]; [reflexivity|].
  destruct s as [|c' s']; [cbn; lia|].
  change (countDots (String c (dropLast (String c' s')))
          <= countDots (String c (String c' s')))%nat.
  cbn [countDots] in *. lia.
Qed.

Lemma superfluousZero_dropLast s :
  superfluousZero (dropLast s) = true -> superfluousZero s = true.
Proof.
  destruct s as [|a [|b [|c s]]]; try discriminate; try (intros H; exact H).
Qed.

Lemma dropLast_snoc s c : dropLast (s +:+ String c EmptyString) = s.
Proof.
  induction s as [|a s IH]; [reflexivity|].
  rewrite append_String. destruct s as [|b s']; [reflexivity|].
  rewrite append_String in IH |- *.
  change (String a (dropLast (String b (s' +:+ String c EmptyString)))
          = String a (String b s')).
  rewrite IH. reflexivity.
Qed.

(** [s.includes('.')] tells whether there is a decimal point. *)
Lemma includes_dot s : includes s "." = negb (countDots s =? 0)%nat.
Proof.
  induction s as [|c s IH]; [reflexivity|].
  cbn [includes startsWith countDots]. rewrite IH.
  destruct (Ascii.eqb "." c) eqn:Hc.
  - apply Ascii.eqb_eq in Hc as <-. destruct s; reflexivity.
  - assert (Ascii.eqb c "." = false) as ->.
    { rewrite Ascii.eqb_sym. exact Hc. }
    reflexivity.
Qed.

End AmountText.

Section Keypad.
Import Converter.

Variable Number : string -> float.
Variable toFixed2 : float -> string.

Abbreviation handleKeyPress := (Converter.handleKeyPress Number toFixed2).
Abbreviation setFromValue := (Converter.setFromValue Number toFixed2).
Abbreviation setToValue := (Converter.setToValue Number toFixed2).
Abbreviation syncAmounts := (Converter.syncAmounts Number toFixed2).

Implicit Types (s : ConverterState) (current next key : string) (rate : float).

(** A key press rewrites the active field and keeps it active. *)
Lemma handleKeyPress_active rate key s :
  activeInput (handleKeyPress rate key s) = activeInput s /\
  activeAmount (handleKeyPress rate key s) =
  match editField (activeAmount s) key with
  | Some next => sanitizeNumber next
  | None => activeAmount s
  end.
Proof.
  unfold Converter.handleKeyPress, activeAmount.
  destruct (editField _ key) as [next|]; [|split; reflexivity].
  destruct (activeInput s); split; reflexivity.
Qed.

Lemma keypadEntry_parts current :
  keypadEntry current = true <->
  digitsAndDots current = true /\ (countDots current <= 1)%nat /\
  superfluousZero current = false.
Proof.
  unfold keypadEntry. rewrite !andb_true_iff, negb_true_iff, Nat.leb_le.
  tauto.
Qed.

Lemma editField_digit current c :
  isDigit c = true ->
  keypadEntry current = true ->
  exists next,
    editField current (String c EmptyString) = Some next /\
    keypadEntry next = true.
Proof.
  intros Hc (Hdd & Hdots & Hzero)%keypadEntry_parts.
  assert (Hnotdot : Ascii.eqb c "." = false).
  { destruct (Ascii.eqb c ".") eqn:E; [|reflexivity].
    apply Ascii.eqb_eq in E. subst c. discriminate. }
  unfold editField.
  rewrite bool_decide_eq_false_2.
  2:{ intros E; inversion E; subst; discriminate. }
  rewrite bool_decide_eq_false_2.
  2:{ intros E; inversion E; subst; discriminate. }
  case_bool_decide as Hcur; eexists; (split; [reflexivity|]);
    apply keypadEntry_parts.
  - cbn. rewrite Hc. cbn. rewrite Hnotdot. repeat split; lia.
  - rewrite digitsAndDots_app, countDots_app, Hdd. cbn. rewrite Hc, Hnotdot.
    cbn. repeat split; [lia|].
    destruct current as [|a [|b rest]]; rewrite ?append_String, ?append_empty;
      [reflexivity| |exact Hzero].
    cbn [superfluousZero]. destruct (Ascii.eqb a "0") eqn:Ea; [|reflexivity].
    apply Ascii.eqb_eq in Ea. subst a. contradiction Hcur. reflexivity.
Qed.

Lemma editField_dot current :
  keypadEntry current = true ->
  match editField current "." with
  | Some next => keypadEntry next = true
  | None => True
  end.
Proof.
  intros (Hdd & Hdots & Hzero)%keypadEntry_parts.
  unfold editField. rewrite bool_decide_eq_false_2 by discriminate.
  rewrite bool_decide_eq_true_2 by reflexivity.
  rewrite includes_dot.
  destruct (countDots current =? 0)%nat eqn:Hnone; cbn [negb]; [|exact I].
  apply Nat.eqb_eq in Hnone.
  case_bool_decide as Hcur; [subst current; reflexivity|].
  apply keypadEntry_parts.
  rewrite digitsAndDots_app, countDots_app, Hdd, Hnone.
  repeat split; [cbn; lia|].
  destruct current as [|a [|b rest]]; rewrite ?append_String, ?append_empty;
    [reflexivity| |exact Hzero].
  cbn [superfluousZero]. apply andb_false_r.
Qed.

Lemma editField_backspace current :
  keypadEntry current = true ->
  editField current "backspace" = Some (dropLast current) /\
  keypadEntry (dropLast current) = true.
Proof.
  intros (Hdd & Hdots & Hzero)%keypadEntry_parts.
  split; [reflexivity|]. apply keypadEntry_parts. repeat split.
  - apply digitsAndDots_dropLast, Hdd.
  - pose proof (countDots_dropLast current). lia.
  - destruct (superfluousZero (dropLast current)) eqn:E; [|reflexivity].
    apply superfluousZero_dropLast in E. congruence.
Qed.

(** One key of the keypad keeps the shape of the entry. *)
Lemma editField_keypad current key :
  key ∈ concat keypadLayout ->
  keypadEntry current = true ->
  match editField current key with
  | Some next => keypadEntry next = true /\ sanitizeNumber next = next
  | None => True
  end.
Proof.
  intros Hkey Hcur.
  assert (Hshape : match editField current key with
                   | Some next => keypadEntry next = true
                   | None => True
                   end).
  { cbn in Hkey.
    repeat (apply elem_of_cons in Hkey as [-> | Hkey]);
      try (apply elem_of_nil in Hkey; contradiction);
      try (apply editField_dot, Hcur);
      try (rewrite (proj1 (editField_backspace current Hcur));
           apply editField_backspace, Hcur);
      match goal with
      | |- context [editField current (String ?c EmptyString)] =>
          destruct (editField_digit current c eq_refl Hcur) as (next & -> & H);
          exact H
      end. }
  destruct (editField current key) as [next|]; [|exact I].
  split; [exact Hshape|].
  apply sanitizeNumber_clean, digitsAndDots_isClean.
  apply keypadEntry_parts in Hshape. tauto.
Qed.

(** X2.  Typing on the keypad keeps the active field a plain decimal
    entry: from such an entry, every sequence of keypad keys leaves digits
    with at most one decimal point and no zero in front of another digit,
    and the active side does not change. *)
Theorem keypad_keeps_entry rate keys s :
  Forall (fun key => key ∈ concat keypadLayout) keys ->
  keypadEntry (activeAmount s) = true ->
  keypadEntry (activeAmount (foldl (fun st key => handleKeyPress rate key st) s keys))
  = true /\
  activeInput (foldl (fun st key => handleKeyPress rate key st) s keys)
  = activeInput s.
Proof.
  intros Hkeys. revert s.
  induction Hkeys as [|key keys Hkey _ IH]; intros s Hs; [split; [exact Hs | reflexivity]|].
  cbn [foldl].
  destruct (handleKeyPress_active rate key s) as [Hside Hfield].
  pose proof (editField_keypad _ _ Hkey Hs) as Hstep.
  assert (Hnext : keypadEntry (activeAmount (handleKeyPress rate key s)) = true).
  { rewrite Hfield. destruct (editField (activeAmount s) key) as [next|];
      [|exact Hs].
    destruct Hstep as [Hshape ->]. exact Hshape. }
  destruct (IH _ Hnext) as [Hfinal Hactive].
  split; [exact Hfinal | congruence].
Qed.

(** X3.  On an entry other than ["0"], typing a digit and then pressing
    backspace gives the entry back. *)
Theorem digit_then_backspace rate c s :
  isDigit c = true ->
  isClean (activeAmount s) = true ->
  activeAmount s <> "0" ->
  activeAmount
    (handleKeyPress rate "backspace"
       (handleKeyPress rate (String c EmptyString) s))
  = activeAmount s.
Proof.
  intros Hc Hclean Hzero.
  assert (Hedit : editField (activeAmount s) (String c EmptyString)
                  = Some (activeAmount s +:+ String c EmptyString)).
  { unfold editField.
    rewrite bool_decide_eq_false_2 by (intros E; inversion E; subst; discriminate).
    rewrite bool_decide_eq_false_2 by (intros E; inversion E; subst; discriminate).
    rewrite bool_decide_eq_false_2 by exact Hzero. reflexivity. }
  assert (Hdigit : allowedChar c = true).
  { unfold allowedChar. unfold isDigit in Hc. rewrite Hc. reflexivity. }
  destruct (handleKeyPress_active rate (String c EmptyString) s) as [_ Hfirst].
  rewrite Hedit, sanitizeNumber_app, (sanitizeNumber_clean _ Hclean) in Hfirst.
  cbn [sanitizeNumber] in Hfirst. rewrite Hdigit in Hfirst.
  destruct (handleKeyPress_active rate "backspace"
              (handleKeyPress rate (String c EmptyString) s)) as [_ ->].
  rewrite Hfirst. cbn [editField]. unfold editField.
  rewrite bool_decide_eq_true_2 by reflexivity.
  rewrite dropLast_snoc. apply sanitizeNumber_clean, Hclean.
Qed.

(** The handlers leave nothing for the effect to do, and the effect never
    touches the active field. *)
Lemma syncAmounts_active rate s :
  activeInput (syncAmounts rate s) = activeInput s /\
  activeAmount (syncAmounts rate s) = activeAmount s.
Proof.
  unfold Converter.syncAmounts, activeAmount.
  destruct (activeInput s) eqn:E; cbn; rewrite ?E; split; reflexivity.
Qed.

(** X4.  The effect that recomputes the passive field changes nothing
    after [setFromValue] or [setToValue] at the same rate, is idempotent,
    and never touches the active field or the active side. *)
Theorem sync_after_handlers rate value s :
  syncAmounts rate (setFromValue rate value s) = setFromValue rate value s /\
  syncAmounts rate (setToValue rate value s) = setToValue rate value s /\
  syncAmounts rate (syncAmounts rate s) = syncAmounts rate s /\
  activeInput (syncAmounts rate s) = activeInput s /\
  activeAmount (syncAmounts rate s) = activeAmount s.
Proof.
  repeat split; try reflexivity; try apply syncAmounts_active.
  unfold Converter.syncAmounts. destruct (activeInput s) eqn:E; cbn; rewrite ?E;
    reflexivity.
Qed.

End Keypad.

Section KeypadSamples.
Import Converter.

(** Typing 1 . 5 . backspace 2 into the initial field. *)
Lemma keypad_keeps_entry_witness :
  keypadEntry
    (activeAmount
       (foldl (fun st key =>
                 handleKeyPress (fun _ => 0%float) (fun _ => "0.00") 1%float key st)
              initialConverter ["1"; "."; "5"; "."; "backspace"; "2"]))
  = true /\
  activeInput
    (foldl (fun st key =>
              handleKeyPress (fun _ => 0%float) (fun _ => "0.00") 1%float key st)
           initialConverter ["1"; "."; "5"; "."; "backspace"; "2"])
  = activeInput initialConverter.
Proof.
  apply (keypad_keeps_entry (fun _ => 0%float) (fun _ => "0.00") 1%float).
  - repeat (constructor; [cbn; set_solver|]). constructor.
  - reflexivity.
Defined.

(** 12, then 7, then backspace. *)
Lemma digit_then_backspace_witness :
  activeAmount
    (handleKeyPress (fun _ => 0%float) (fun _ => "0.00") 1%float "backspace"
       (handleKeyPress (fun _ => 0%float) (fun _ => "0.00") 1%float "7"
          (setFromValue (fun _ => 0%float) (fun _ => "0.00") 1%float "12"
             initialConverter)))
  = "12".
Proof.
  apply (digit_then_backspace (fun _ => 0%float) (fun _ => "0.00") 1%float "7"
           (setFromValue (fun _ => 0%float) (fun _ => "0.00") 1%float "12"
              initialConverter)).
  - reflexivity.
  - reflexivity.
  - discriminate.
Defined.

End KeypadSamples.

(** ** The currency picker *)

Section Picker.
Import Converter.

Implicit Types (s t u : string) (st : ConverterState).

Lemma append_assoc s t u : (s +:+ t) +:+ u = s +:+ (t +:+ u).
Proof.
  induction s as [|c s IH]; [reflexivity|].
  rewrite !append_String, IH. reflexivity.
Qed.

Lemma startsWith_spec s t : startsWith s t = true <-> exists b, s = t +:+ b.
Proof.
  revert s. induction t as [|a t IH]; intros s.
  - split; [intros _; exists s; reflexivity | intros _; destruct s; reflexivity].
  - destruct s as [|c s].
    + split; [discriminate | intros [b Hb]; discriminate].
    + cbn [startsWith]. rewrite andb_true_iff, IH, Ascii.eqb_eq. split.
      * intros [-> [b ->]]. exists b. reflexivity.
      * intros [b Hb]. rewrite append_String in Hb. injection Hb as -> ->.
        split; [reflexivity | exists b; reflexivity].
Qed.

(** [s.includes(t)] holds exactly when [t] occurs somewhere in [s]. *)
Lemma includes_spec s t :
  includes s t = true <-> exists a b, s = a +:+ t +:+ b.
Proof.
  induction s as [|c s IH].
  - cbn [includes]. rewrite orb_false_r, startsWith_spec. split.
    + intros [b Hb]. exists EmptyString, b. exact Hb.
    + intros (a & b & Hab). destruct a as [|x a]; [|discriminate].
      exists b. exact Hab.
  - cbn [includes]. rewrite orb_true_iff, startsWith_spec, IH. split.
    + intros [[b Hb] | (a & b & Hab)].
      * exists EmptyString, b. exact Hb.
      * exists (String c a), b. rewrite append_String, Hab. reflexivity.
    + intros (a & b & Hab). destruct a as [|x a].
      * left. exists b. exact Hab.
      * right. rewrite append_String in Hab. injection Hab as -> ->.
        exists a, b. reflexivity.
Qed.

Lemma includes_trans s t u :
  includes s t = true -> includes t u = true -> includes s u = true.
Proof.
  rewrite !includes_spec. intros (a & b & ->) (a' & b' & ->).
  exists (a +:+ a'), (b' +:+ b). rewrite !append_assoc. reflexivity.
Qed.

Lemma includes_empty t : includes EmptyString t = true -> t = EmptyString.
Proof. destruct t; [reflexivity | discriminate]. Qed.

Lemma filter_sublist {A} (f : A -> bool) (l : list A) :
  List.filter f l `sublist_of` l.
Proof.
  induction l as [|x l IH]; [constructor|].
  cbn. destruct (f x); constructor; exact IH.
Qed.

Lemma filter_sublist_impl {A} (f g : A -> bool) (l : list A) :
  (forall x, f x = true -> g x = true) ->
  List.filter f l `sublist_of` List.filter g l.
Proof.
  intros Hfg. induction l as [|x l IH]; [constructor|].
  cbn. destruct (f x) eqn:Hf.
  - rewrite (Hfg _ Hf). constructor. exact IH.
  - destruct (g x); [constructor|]; exact IH.
Qed.

Variable trim : string -> string.
Variable toLowerCase : string -> string.

Abbreviation searchKey := (Converter.searchKey trim toLowerCase).
Abbreviation matchesTerm := (Converter.matchesTerm toLowerCase).
Abbreviation filteredCurrencies := (Converter.filteredCurrencies trim toLowerCase).


(** A code or name that contains a key contains every part of that key. *)
Lemma matchesTerm_narrower (currencyNames : gmap string string) t u code :
  includes t u = true ->
  matchesTerm currencyNames t code = true ->
  matchesTerm currencyNames u code = true.
Proof.
  unfold Converter.matchesTerm. intros Hsub [H | H]%orb_true_iff;
    apply orb_true_iff; [left | right]; exact (includes_trans _ _ _ H Hsub).
Qed.

(** X6.  A longer search never adds results: when the key of one search
    occurs inside the key of another, the results of the latter are among
    the results of the former, in the same order. *)
Theorem search_narrows (currencies : list string)
    (currencyNames : gmap string string) (shorter longer : string) :
  includes (searchKey longer) (searchKey shorter) = true ->
  filteredCurrencies currencies currencyNames longer
    `sublist_of` filteredCurrencies currencies currencyNames shorter.
Proof.
  intros Hsub. unfold Converter.filteredCurrencies.
  destruct (decide (searchKey shorter = EmptyString)) as [Hshort | Hshort].
  - rewrite (bool_decide_eq_true_2 _ Hshort).
    case_bool_decide; [reflexivity | apply filter_sublist].
  - rewrite (bool_decide_eq_false_2 _ Hshort).
    case_bool_decide as Hlong.
    + rewrite Hlong in Hsub. apply includes_empty in Hsub. contradiction.
    + apply filter_sublist_impl. intros code.
      apply matchesTerm_narrower, Hsub.
Qed.

End Picker.

Section PickerFlow.
Import Converter.


(** Searching for "u" and then for "us" in the built-in catalog. *)
Lemma search_narrows_witness :
  filteredCurrencies id id Client.fallbackCurrencies Client.fallbackNames "US"
    `sublist_of`
  filteredCurrencies id id Client.fallbackCurrencies Client.fallbackNames "U".
Proof.
  apply (search_narrows id id). reflexivity.
Defined.


End PickerFlow.

Section SwapFlow.
Import Converter.

Variable Number : string -> float.
Variable toFixed2 : float -> string.

Abbreviation parseNumber := (Converter.parseNumber Number).
Abbreviation formatAmount := (Converter.formatAmount toFixed2).
Abbreviation syncAmounts := (Converter.syncAmounts Number toFixed2).

(** X8.  A press on swap, followed by the effect at the rate [r1] of the
    exchanged pair, exchanges the two currencies, makes the source side
    active, moves the former target amount into the source field and
    converts it again into the target field.  A second press, followed by
    the effect at the rate [r2], gives the currency pair back; the source
    field then holds the amount converted after the first press, not the
    former target amount, and the picker is left as it was. *)
Theorem swap_exchanges r1 r2 st :
  let once := syncAmounts r1 (swap st) in
  let twice := syncAmounts r2 (swap once) in
  let converted := formatAmount (parseNumber (amountTo st) * r1) in
  (fromCurrency once = toCurrency st /\
   toCurrency once = fromCurrency st /\
   activeInput once = TargetFrom /\
   amountFrom once = amountTo st /\
   amountTo once = converted) /\
  (fromCurrency twice = fromCurrency st /\
   toCurrency twice = toCurrency st /\
   activeInput twice = TargetFrom /\
   amountFrom twice = converted /\
   amountTo twice = formatAmount (parseNumber converted * r2)) /\
  (modalVisible twice = modalVisible st /\
   modalTarget twice = modalTarget st /\
   searchTerm twice = searchTerm st).
Proof. repeat split. Qed.

End SwapFlow.

(** ** More on the fetch cycle *)

Section FetchCycleOutcomes.
Import Effects Client.

Implicit Types (net : Network) (s : AppState) (pairs : list (string * string)).

Lemma sortedCodes_elem pairs code : code ∈ sortedCodes pairs <-> code ∈ pairs.*1.
Proof. rewrite (sortedCodes_Permutation pairs). reflexivity. Qed.

Lemma fromEntries_is_Some {V} (entries : list (string * V)) key :
  is_Some (fromEntries entries !! key) <-> key ∈ entries.*1.
Proof.
  rewrite <- not_eq_None_Some, fromEntries_lookup_None. split.
  - intros H. destruct (decide (key ∈ entries.*1)); [assumption | contradiction].
  - intros H Hnot. contradiction.
Qed.

Lemma foldl_insert_notin {V} (entries : list (string * V)) (obj : gmap string V) key :
  key ∉ entries.*1 ->
  foldl (fun acc e => <[e.1 := e.2]> acc) obj entries !! key = obj !! key.
Proof.
  revert obj. induction entries as [|[k v] entries IH]; intros obj Hnot;
    [reflexivity|].
  cbn [foldl]. apply not_elem_of_cons in Hnot as [Hne Hnot].
  rewrite (IH _ Hnot). apply lookup_insert_ne. cbn in Hne |- *. congruence.
Qed.

(** X9.  The catalog of a codes response: the list of codes is sorted and
    holds every code of the response as often as the response does, and the
    name of a code is the one of its last entry. *)
Theorem catalog_of_response pairs :
  Sorted String.le (sortedCodes pairs) /\
  sortedCodes pairs ≡ₚ pairs.*1 /\
  (forall before code name after,
     pairs = before ++ (code, name) :: after ->
     code ∉ after.*1 ->
     fromEntries pairs !! code = Some name).
Proof.
  split; [apply sortedCodes_Sorted|]. split; [apply sortedCodes_Permutation|].
  intros before code name after -> Hlast.
  unfold fromEntries. rewrite foldl_app. cbn [foldl].
  rewrite (foldl_insert_notin _ _ _ Hlast). apply lookup_insert_eq.
Qed.

(** A response that lists the euro twice. *)
Lemma catalog_of_response_witness :
  fromEntries [("USD", "Dollar"); ("EUR", "Ecu"); ("EUR", "Euro")] !! "EUR"
  = Some "Euro".
Proof.
  destruct (catalog_of_response
              [("USD", "Dollar"); ("EUR", "Ecu"); ("EUR", "Euro")])
    as (_ & _ & Hlast).
  apply (Hlast [("USD", "Dollar"); ("EUR", "Ecu")] "EUR" "Euro" []).
  - reflexivity.
  - cbn. apply not_elem_of_nil.
Defined.

(** X10.  After every cycle the catalog is consistent: a code is listed
    exactly when it has a name. *)
Theorem catalog_consistent apiBaseUrl net s code :
  code ∈ currencies (app (runCycle apiBaseUrl net s)) <->
  is_Some (currencyNames (app (runCycle apiBaseUrl net s)) !! code).
Proof.
  assert (Hfallback : code ∈ fallbackCurrencies <-> is_Some (fallbackNames !! code))
    by (symmetry; apply fallbackNames_codes).
  destruct (configured apiBaseUrl) as [url|] eqn:Hcfg.
  - rewrite (runCycle_configured _ _ _ _ Hcfg). cbn [app].
    destruct (awaited net (codesUrlOf url) (ratesUrlOf url))
      as [[[[codesRes ratesRes] codesJson] ratesJson]|]; [|exact Hfallback].
    unfold applied. cbn [currencies currencyNames].
    destruct (codesSuccessOf codesRes codesJson); [|exact Hfallback].
    rewrite sortedCodes_elem, fromEntries_is_Some. reflexivity.
  - rewrite (runCycle_unconfigured _ _ _ Hcfg). exact Hfallback.
Qed.

(** X11.  A cycle never throws, always leaves the loading state, and sends
    no request without a backend address and otherwise exactly two, the
    codes request first. *)
Theorem cycle_shape apiBaseUrl net s :
  (loadSymbolsAndRates apiBaseUrl net (mkWorld s [])).1 = Normal tt /\
  loading (app (runCycle apiBaseUrl net s)) = false /\
  freshness (app (runCycle apiBaseUrl net s)) <> StatusLoading /\
  requests (runCycle apiBaseUrl net s) =
  match configured apiBaseUrl with
  | Some url => [codesUrlOf url; ratesUrlOf url]
  | None => []
  end.
Proof.
  split; [apply cycle_never_throws|].
  assert (Hload : loading (app (runCycle apiBaseUrl net s)) = false).
  { destruct (configured apiBaseUrl) as [url|] eqn:Hcfg.
    - rewrite (runCycle_configured _ _ _ _ Hcfg). cbn [app].
      destruct (awaited net (codesUrlOf url) (ratesUrlOf url))
        as [[[[codesRes ratesRes] codesJson] ratesJson]|]; reflexivity.
    - rewrite (runCycle_unconfigured _ _ _ Hcfg). reflexivity. }
  split; [exact Hload|]. split.
  - unfold freshness. rewrite Hload.
    destruct (usingFallback _); discriminate.
  - destruct (configured apiBaseUrl) as [url|] eqn:Hcfg.
    + rewrite (runCycle_configured _ _ _ _ Hcfg). reflexivity.
    + rewrite (runCycle_unconfigured _ _ _ Hcfg). reflexivity.
Qed.

(** X12.  The status is live after a cycle only if the cycle had a backend
    address, no await threw, and both sub-fetches succeeded. *)
Theorem live_only_if_both_succeed apiBaseUrl net s :
  freshness (app (runCycle apiBaseUrl net s)) = StatusLive ->
  exists url codesRes ratesRes codesJson ratesJson,
    configured apiBaseUrl = Some url /\
    awaited net (codesUrlOf url) (ratesUrlOf url)
    = Fulfilled (codesRes, ratesRes, codesJson, ratesJson) /\
    codesSuccessOf codesRes codesJson = true /\
    ratesSuccessOf ratesRes ratesJson = true.
Proof.
  destruct (configured apiBaseUrl) as [url|] eqn:Hcfg.
  - rewrite (runCycle_configured _ _ _ _ Hcfg). cbn [app].
    destruct (awaited net (codesUrlOf url) (ratesUrlOf url))
      as [[[[codesRes ratesRes] codesJson] ratesJson]|] eqn:Hawait.
    + unfold applied, freshness. cbn [loading usingFallback].
      intros Hlive. exists url, codesRes, ratesRes, codesJson, ratesJson.
      destruct (codesSuccessOf codesRes codesJson),
               (ratesSuccessOf ratesRes ratesJson); try discriminate.
      auto.
    + discriminate.
  - rewrite (runCycle_unconfigured _ _ _ Hcfg). discriminate.
Qed.

(** A cycle that ends live: both requests were answered with a success. *)
Lemma live_only_if_both_succeed_witness :
  exists url codesRes ratesRes codesJson ratesJson,
    configured (Some Samples.backend) = Some url /\
    awaited LiveSamples.bothSucceed (codesUrlOf url) (ratesUrlOf url)
    = Fulfilled (codesRes, ratesRes, codesJson, ratesJson) /\
    codesSuccessOf codesRes codesJson = true /\
    ratesSuccessOf ratesRes ratesJson = true.
Proof.
  apply (live_only_if_both_succeed (Some Samples.backend) LiveSamples.bothSucceed
           initialState).
  vm_compute. reflexivity.
Defined.

End FetchCycleOutcomes.

Section FetchCycleMixed.
Import Effects Client.
Open Scope float_scope.

Implicit Types (net : Network) (s : AppState).

(** X13.  When both sub-fetches succeed, the cycle ends live with the
    catalog of the codes response and the table of the rates response, in
    which the entry of the base code is forced to [1] and every other entry
    is the one received. *)
Theorem both_succeed_live
    apiBaseUrl url net s codesRes codesBody pairs ratesRes ratesBody incoming :
  configured apiBaseUrl = Some url ->
  net (codesUrlOf url) = Fulfilled codesRes ->
  ok codesRes = true ->
  json codesRes = Fulfilled (Some codesBody) ->
  result codesBody = Some "success" ->
  supported_codes codesBody = Some pairs ->
  net (ratesUrlOf url) = Fulfilled ratesRes ->
  ok ratesRes = true ->
  json ratesRes = Fulfilled (Some ratesBody) ->
  result ratesBody = Some "success" ->
  conversion_rates ratesBody = Some incoming ->
  let final := app (runCycle apiBaseUrl net s) in
  let baseCode := JsString.orElse (base_code ratesBody) "USD" in
  currencies final = sortedCodes pairs /\
  currencyNames final = fromEntries pairs /\
  rates final !! baseCode = Some 1 /\
  (forall code, code <> baseCode -> rates final !! code = incoming !! code) /\
  freshness final = StatusLive.
Proof.
  intros Hcfg Hcodes Hokc Hjsonc Hresc Hpairs Hrates Hokr Hjsonr Hresr Hinc.
  assert (Hawait : awaited net (codesUrlOf url) (ratesUrlOf url)
                   = Fulfilled (codesRes, ratesRes, Some codesBody, Some ratesBody)).
  { unfold awaited, bodyPromise, promiseAll.
    rewrite Hcodes, Hrates, Hokc, Hokr, Hjsonc, Hjsonr. reflexivity. }
  assert (Hcs : codesSuccessOf codesRes (Some codesBody) = true).
  { unfold codesSuccessOf, resultIsSuccess, isArraySupportedCodes.
    rewrite Hokc, Hresc, Hpairs. rewrite !bool_decide_eq_true_2; eauto. }
  assert (Hrs : ratesSuccessOf ratesRes (Some ratesBody) = true).
  { unfold ratesSuccessOf, resultIsSuccess, hasConversionRates.
    rewrite Hokr, Hresr, Hinc. rewrite !bool_decide_eq_true_2; eauto. }
  destruct (both_applied_live _ _ _ s _ _ _ _ Hcfg Hawait Hcs Hrs) as [Hstate Hlive].
  cbv zeta. rewrite Hlive, Hstate. cbn [currencies currencyNames rates].
  unfold supportedCodesOf, conversionRatesOf, baseCodeOf. cbn. rewrite Hpairs, Hinc.
  repeat split.
  - apply lookup_insert_eq.
  - intros code Hne. apply lookup_insert_ne. congruence.
Qed.

Lemma both_succeed_live_witness :
  let final := app (runCycle (Some Samples.backend) LiveSamples.bothSucceed initialState) in
  currencies final = ["CHF"; "EUR"; "USD"] /\
  rates final !! "EUR" = Some 0.9 /\
  freshness final = StatusLive.
Proof.
  intros final.
  pose proof (both_succeed_live
                (Some Samples.backend) Samples.backend LiveSamples.bothSucceed
                initialState Samples.codesOk Samples.codesBody
                [("USD", "United States Dollar"); ("EUR", "Euro"); ("CHF", "Swiss Franc")]
                LiveSamples.ratesOk LiveSamples.ratesBody
                (fromEntries [("USD", 1); ("EUR", 0.9); ("CHF", 0.8)]))
    as H.
  destruct H as (Hcodes & _ & _ & Hother & Hlive); try reflexivity.
  split; [exact Hcodes|]. split; [|exact Hlive].
  subst final. rewrite (Hother "EUR") by discriminate.
  vm_compute. reflexivity.
Defined.

(** X14.  When the codes sub-fetch fails (a non-2xx status, a [result]
    other than ["success"], or no array of codes) and the rates sub-fetch
    succeeds, the cycle keeps the received rates next to the built-in
    catalog, and the status is fallback. *)
Theorem codes_fallback_rates_applied
    apiBaseUrl url net s codesRes ratesRes ratesBody incoming :
  configured apiBaseUrl = Some url ->
  net (codesUrlOf url) = Fulfilled codesRes ->
  (ok codesRes = false \/
   exists codesJson,
     json codesRes = Fulfilled codesJson /\
     (resultIsSuccess codesJson = false \/ isArraySupportedCodes codesJson = false)) ->
  net (ratesUrlOf url) = Fulfilled ratesRes ->
  ok ratesRes = true ->
  json ratesRes = Fulfilled (Some ratesBody) ->
  result ratesBody = Some "success" ->
  conversion_rates ratesBody = Some incoming ->
  let final := app (runCycle apiBaseUrl net s) in
  currencies final = fallbackCurrencies /\
  currencyNames final = fallbackNames /\
  rates final = <[JsString.orElse (base_code ratesBody) "USD" := 1]> incoming /\
  freshness final = StatusFallback.
Proof.
  intros Hcfg Hcodes Hfail Hrates Hokr Hjsonr Hresr Hinc.
  assert (Hrs : ratesSuccessOf ratesRes (Some ratesBody) = true).
  { unfold ratesSuccessOf, resultIsSuccess, hasConversionRates.
    rewrite Hokr, Hresr, Hinc. rewrite !bool_decide_eq_true_2; eauto. }
  assert (Hawait : exists codesJson,
             awaited net (codesUrlOf url) (ratesUrlOf url)
             = Fulfilled (codesRes, ratesRes, codesJson, Some ratesBody) /\
             codesSuccessOf codesRes codesJson = false).
  { unfold awaited, bodyPromise, promiseAll, codesSuccessOf.
    rewrite Hcodes, Hrates, Hokr, Hjsonr.
    destruct Hfail as [Hnok | (codesJson & Hcj & Hnot)].
    - rewrite Hnok. exists None. split; reflexivity.
    - destruct (ok codesRes).
      + exists codesJson. rewrite Hcj. split; [reflexivity|].
        destruct Hnot as [-> | ->]; [reflexivity | apply andb_false_r].
      + exists None. split; reflexivity. }
  destruct Hawait as (codesJson & Hawait & Hcs).
  cbv zeta. rewrite (runCycle_configured _ _ _ _ Hcfg), Hawait. cbn [app].
  unfold applied, freshness.
  cbn [currencies currencyNames rates usingFallback loading].
  rewrite Hcs, Hrs.
  unfold conversionRatesOf, baseCodeOf. cbn. rewrite Hinc. repeat split.
Qed.

Lemma codes_fallback_rates_applied_witness :
  let final := app (runCycle (Some Samples.backend) LiveSamples.codesFail initialState) in
  currencies final = fallbackCurrencies /\
  rates final !! "CHF" = Some 0.8 /\
  freshness final = StatusFallback.
Proof.
  intros final.
  pose proof (codes_fallback_rates_applied
                (Some Samples.backend) Samples.backend LiveSamples.codesFail
                initialState {| ok := false; json := Rejected |}
                LiveSamples.ratesOk LiveSamples.ratesBody
                (fromEntries [("USD", 1); ("EUR", 0.9); ("CHF", 0.8)]))
    as H.
  destruct H as (Hcodes & _ & Htable & Hstatus); try reflexivity.
  - left. reflexivity.
  - split; [exact Hcodes|]. split; [|exact Hstatus].
    subst final. rewrite Htable. vm_compute. reflexivity.
Defined.

End FetchCycleMixed.

(** ** Addresses, built-in rates and the direct client *)

Section Addresses.
Import Effects Client.
Open Scope float_scope.

Lemma stripTrailingSlash_snoc base : stripTrailingSlash (base +:+ "/") = base.
Proof.
  induction base as [|c base IH]; [reflexivity|].
  rewrite append_String.
  destruct (base +:+ "/") as [|c' rest] eqn:E.
  - destruct base; discriminate.
  - cbn [stripTrailingSlash]. cbn [stripTrailingSlash] in IH.
    rewrite IH. reflexivity.
Qed.

Lemma stripTrailingSlash_none base :
  Address.endsWithSlash base = false -> stripTrailingSlash base = base.
Proof.
  induction base as [|c base IH]; [reflexivity|]. intros Hend.
  destruct base as [|c' rest].
  - cbn in Hend |- *. rewrite Hend. reflexivity.
  - change (String c (stripTrailingSlash (String c' rest))
            = String c (String c' rest)).
    rewrite IH; [reflexivity | exact Hend].
Qed.

(** X15.  One slash at the end of the backend address makes no
    difference: with or without it the cycle asks for [<address>/codes] and
    [<address>/rates?base=USD]. *)
Theorem trailing_slash_irrelevant base :
  Address.endsWithSlash base = false ->
  codesUrlOf base = base +:+ "/codes" /\
  ratesUrlOf base = base +:+ "/rates?base=USD" /\
  codesUrlOf (base +:+ "/") = codesUrlOf base /\
  ratesUrlOf (base +:+ "/") = ratesUrlOf base.
Proof.
  intros Hend. unfold codesUrlOf, ratesUrlOf.
  rewrite stripTrailingSlash_snoc, (stripTrailingSlash_none _ Hend).
  repeat split.
Qed.

(** Every entry of a rebased built-in table is positive and finite. *)
Lemma rebased_entries_positive :
  Forall (fun base =>
            Forall (fun e =>
                      JsNumber.positive ((1 / base.2) * e.2) = true /\
                      is_finite ((1 / base.2) * e.2) = true)
                   baseRatesLiteral)
         baseRatesLiteral.
Proof. repeat constructor; vm_compute; reflexivity. Qed.

Lemma baseRates_entries_positive :
  Forall (fun e => JsNumber.positive e.2 = true /\ is_finite e.2 = true)
         baseRatesLiteral.
Proof. repeat constructor; vm_compute; reflexivity. Qed.

Lemma fallback_entry_positive base code a :
  deriveRatesFromFallback base !! code = Some a ->
  JsNumber.positive a = true /\ is_finite a = true.
Proof.
  destruct (baseRates !! base) as [b|] eqn:Hb.
  - rewrite (deriveRatesFromFallback_key _ _ Hb), lookup_fmap.
    destruct (baseRates !! code) as [r|] eqn:Hr; [|discriminate].
    intros [= <-].
    pose proof rebased_entries_positive as Hall.
    rewrite Forall_forall in Hall.
    specialize (Hall _ (baseRates_lookup_literal _ _ Hb)).
    rewrite Forall_forall in Hall.
    exact (Hall _ (baseRates_lookup_literal _ _ Hr)).
  - rewrite (deriveRatesFromFallback_other _ Hb). intros Ha.
    pose proof baseRates_entries_positive as Hall.
    rewrite Forall_forall in Hall.
    exact (Hall _ (baseRates_lookup_literal _ _ Ha)).
Qed.

(** For a base that is no property name of the prototype, the read of
    [baseRates[base]] finds an own entry or [undefined], as the own-property
    reading has it. *)
Lemma deriveRatesFromFallback_reads_agree base :
  JsObject.inherited base = false ->
  PrototypeReads.deriveRatesFromFallback base = deriveRatesFromFallback base.
Proof.
  intros Hi. unfold PrototypeReads.deriveRatesFromFallback, deriveRatesFromFallback,
    JsObject.get.
  destruct (baseRates !! base) as [b|]; [|rewrite Hi]; reflexivity.
Qed.

(** For a base that is one, every entry of the result is [NaN]. *)
Lemma deriveRatesFromFallback_inherited base code a :
  JsObject.inherited base = true ->
  PrototypeReads.deriveRatesFromFallback base !! code = Some a ->
  is_nan a = true.
Proof.
  intros Hi.
  assert (Hb : baseRates !! base = None).
  { unfold JsObject.inherited in Hi. apply bool_decide_eq_true_1 in Hi.
    unfold JsObject.prototypeNames in Hi.
    repeat (apply elem_of_cons in Hi as [-> | Hi]; [vm_compute; reflexivity|]).
    apply elem_of_nil in Hi. contradiction. }
  unfold PrototypeReads.deriveRatesFromFallback, JsObject.get.
  rewrite Hb, Hi. cbn [JsObject.falsy JsObject.toNumber].
  rewrite (fromEntries_map_entries (fun r => (1 / nan) * r)), lookup_fmap.
  destruct (baseRates !! code) as [r|]; [|discriminate].
  intros [= <-]. apply SF_nan_is_nan. rewrite FloatAxioms.mul_spec.
  replace (Prim2SF (1 / nan)) with S754_nan by (vm_compute; reflexivity).
  reflexivity.
Qed.

(** X16.  On a built-in table derived for a base that is no property name
    of [Object.prototype], the guard of [rate] never fires for two codes of
    the table: every entry is positive and finite, and the rate is the
    quotient of the two entries. *)
Theorem fallback_rates_divide base src tgt a b :
  JsObject.inherited base = false ->
  PrototypeReads.deriveRatesFromFallback base !! src = Some a ->
  PrototypeReads.deriveRatesFromFallback base !! tgt = Some b ->
  JsNumber.positive a = true /\ is_finite a = true /\
  PrototypeReads.rate (PrototypeReads.deriveRatesFromFallback base) src tgt
  = b / a.
Proof.
  intros Hi. rewrite (deriveRatesFromFallback_reads_agree _ Hi).
  intros Ha Hb.
  destruct (fallback_entry_positive _ _ _ Ha) as [Hpa Hfa].
  destruct (fallback_entry_positive _ _ _ Hb) as [Hpb _].
  pose proof (rateOperands_truthy _ _ _ _ _ Ha Hb
                (positive_not_falsy _ Hpa) (positive_not_falsy _ Hpb)) as Hops.
  repeat split; try assumption.
  rewrite rate_reads_agree, rate_unfold, Hops; [reflexivity | left | left];
    eexists; eassumption.
Qed.

(** Pounds to yen on the table rebased on the euro. *)
Lemma fallback_rates_divide_witness :
  PrototypeReads.rate (PrototypeReads.deriveRatesFromFallback "EUR") "GBP" "JPY"
  = ((1 / 0.92) * 155.8) / ((1 / 0.92) * 0.78).
Proof.
  apply (fallback_rates_divide "EUR" "GBP" "JPY"
           ((1 / 0.92) * 0.78) ((1 / 0.92) * 155.8));
    vm_compute; reflexivity.
Defined.

(** An address without a slash at its end. *)
Lemma trailing_slash_irrelevant_witness :
  codesUrlOf "https://proxy.example/" = "https://proxy.example/codes" /\
  ratesUrlOf "https://proxy.example/" = ratesUrlOf "https://proxy.example".
Proof.
  destruct (trailing_slash_irrelevant "https://proxy.example")
    as (Hplain & _ & Hc & Hr); [reflexivity|].
  split; [|exact Hr].
  change (codesUrlOf ("https://proxy.example" +:+ "/")
          = "https://proxy.example" +:+ "/codes").
  rewrite Hc. exact Hplain.
Defined.

End Addresses.

Section DirectVariant.
Import Effects Client.

Implicit Types (net : Network) (s : AppState) (w : World).

Ltac direct_unfold :=
  cbv [DirectClient.loadSymbolsAndRates DirectClient.fetchAndApply
       installFallback resetToFallback fetch bodyOf
       mbind eff_bind bind mret eff_ret ret await promiseAll throw modify
       tryCatchFinally tryCatch
       setCurrencies setCurrencyNames setRates setUsingFallback setLoading
       app requests currencies currencyNames rates usingFallback loading
       fst snd].

(** Without the [ok] test the two success flags are still those of the
    proxy client, because a non-2xx response has no body. *)
Lemma direct_success_flags (response : HttpResponse) body :
  bodyPromise response = Fulfilled body ->
  DirectClient.codesSuccessOf body = codesSuccessOf response body /\
  DirectClient.ratesSuccessOf body = ratesSuccessOf response body.
Proof.
  unfold bodyPromise, DirectClient.codesSuccessOf, DirectClient.ratesSuccessOf,
    codesSuccessOf, ratesSuccessOf.
  destruct (ok response); [intros _; split; reflexivity|].
  intros [= <-]. split; reflexivity.
Qed.

Lemma direct_fetchAndApply_unfold net codesUrl ratesUrl w :
  DirectClient.fetchAndApply net codesUrl ratesUrl w =
  let sent := (requests w ++ [codesUrl]) ++ [ratesUrl] in
  match awaited net codesUrl ratesUrl with
  | Fulfilled (codesRes, ratesRes, codesJson, ratesJson) =>
      (Normal tt,
       mkWorld (applied (app w) codesRes ratesRes codesJson ratesJson) sent)
  | Rejected => (Abrupt, mkWorld (app w) sent)
  end.
Proof.
  destruct w as [s reqs]. unfold awaited, applied, promiseAll.
  direct_unfold.
  destruct (net codesUrl) as [codesRes|], (net ratesUrl) as [ratesRes|];
    try reflexivity.
  pose proof (direct_success_flags codesRes) as Hc.
  pose proof (direct_success_flags ratesRes) as Hr.
  unfold bodyPromise in *.
  destruct (ok codesRes), (json codesRes) as [cj|], (ok ratesRes),
           (json ratesRes) as [rj|]; try reflexivity;
    match goal with
    | |- context [DirectClient.codesSuccessOf ?j] =>
        destruct (Hc j eq_refl) as [-> _]
    end;
    match goal with
    | |- context [DirectClient.ratesSuccessOf ?j] =>
        destruct (Hr j eq_refl) as [_ ->]
    end;
    match goal with
    | |- context [codesSuccessOf ?r ?j] =>
        destruct (codesSuccessOf r j);
        match goal with
        | |- context [ratesSuccessOf ?r' ?j'] => destruct (ratesSuccessOf r' j')
        end
    end; reflexivity.
Qed.

Lemma direct_runCycle_configured apiKey key net s :
  configured apiKey = Some key ->
  DirectClient.runCycle apiKey net s =
  mkWorld
    match awaited net (DirectClient.codesUrlOf key) (DirectClient.ratesUrlOf key) with
    | Fulfilled (codesRes, ratesRes, codesJson, ratesJson) =>
        applied
          {| currencies := currencies s; currencyNames := currencyNames s;
             rates := rates s; usingFallback := usingFallback s;
             loading := false |}
          codesRes ratesRes codesJson ratesJson
    | Rejected => fallbackState
    end
    [DirectClient.codesUrlOf key; DirectClient.ratesUrlOf key].
Proof.
  intros Hkey. unfold DirectClient.runCycle, DirectClient.loadSymbolsAndRates.
  unfold mbind at 1. unfold eff_bind, bind. cbn [setLoading modify].
  rewrite Hkey. cbv zeta. unfold tryCatchFinally, tryCatch.
  rewrite direct_fetchAndApply_unfold.
  destruct (awaited net (DirectClient.codesUrlOf key) (DirectClient.ratesUrlOf key))
    as [[[[codesRes ratesRes] codesJson] ratesJson]|]; reflexivity.
Qed.

(** X17.  The variants that call the provider directly end a cycle in the
    same state as the proxy client whenever the two requests are answered
    alike, and without a key they install the same fallback state without a
    request. *)
Theorem direct_client_agrees apiKey apiBaseUrl netDirect net s :
  (configured apiKey = None ->
   DirectClient.runCycle apiKey netDirect s = mkWorld fallbackState []) /\
  (forall key url,
     configured apiKey = Some key ->
     configured apiBaseUrl = Some url ->
     netDirect (DirectClient.codesUrlOf key) = net (codesUrlOf url) ->
     netDirect (DirectClient.ratesUrlOf key) = net (ratesUrlOf url) ->
     app (DirectClient.runCycle apiKey netDirect s)
     = app (runCycle apiBaseUrl net s) /\
     requests (DirectClient.runCycle apiKey netDirect s)
     = [DirectClient.codesUrlOf key; DirectClient.ratesUrlOf key]).
Proof.
  split.
  - intros Hkey. unfold DirectClient.runCycle, DirectClient.loadSymbolsAndRates.
    unfold mbind, eff_bind, bind. cbn [setLoading modify]. rewrite Hkey.
    reflexivity.
  - intros key url Hkey Hcfg Hcodes Hrates.
    rewrite (runCycle_configured _ _ _ _ Hcfg),
      (direct_runCycle_configured _ _ _ _ Hkey).
    split; [|reflexivity]. cbn [app].
    unfold awaited. rewrite Hcodes, Hrates. reflexivity.
Qed.

(** The provider answering the key [k3y] as the proxy answers. *)
Lemma direct_client_agrees_witness :
  app (DirectClient.runCycle (Some "k3y") LiveSamples.providerSucceeds initialState)
  = app (runCycle (Some Samples.backend) LiveSamples.bothSucceed initialState).
Proof.
  destruct (direct_client_agrees (Some "k3y") (Some Samples.backend)
              LiveSamples.providerSucceeds LiveSamples.bothSucceed initialState)
    as [_ Hsame].
  apply (Hsame "k3y" Samples.backend); reflexivity.
Defined.

End DirectVariant.

(** ** More on the proxy *)

Section ProxyOutcomes.
Import Effects Proxy.

Variable API_KEY : option string.
Variable upstream : Upstream.
Variables toUpperCase encodeURIComponent : string -> string.

Abbreviation serve := (Proxy.serve API_KEY upstream toUpperCase encodeURIComponent).
Abbreviation upstreamUrl := (Proxy.upstreamUrl API_KEY toUpperCase encodeURIComponent).

(** X18.  With a credential, a provider answer that is 2xx, parses and
    carries [result: "success"] is relayed as it is with status 200, after
    exactly one outbound call. *)
Theorem upstream_success_relayed route response parsed :
  JsString.truthy API_KEY = true ->
  upstream (upstreamUrl route) = Fulfilled response ->
  ok response = true ->
  json response = Fulfilled parsed ->
  resultIsSuccess parsed = true ->
  statusCode (res (serve route)) = 200%Z /\
  body (res (serve route)) = Some parsed /\
  outbound (serve route) = [upstreamUrl route].
Proof.
  intros Hkey Hresp Hok Hjson Hsuccess.
  rewrite (serve_with_key _ _ _ _ _ Hkey), relay_unfold.
  rewrite Hresp, Hjson, Hok, Hsuccess. repeat split.
Qed.

(** X19.  With a credential, when the outbound call fails or its body is
    no JSON (whatever the status of the provider), the proxy answers 500
    with the generic error of the route and nothing of the provider's
    answer. *)
Theorem transport_failure_500 route :
  JsString.truthy API_KEY = true ->
  (upstream (upstreamUrl route) = Rejected \/
   exists response,
     upstream (upstreamUrl route) = Fulfilled response /\
     json response = Rejected) ->
  statusCode (res (serve route)) = 500%Z /\
  body (res (serve route)) = Some (JObject [("error", JString (ProxyConfig.failureOf route))]) /\
  outbound (serve route) = [upstreamUrl route].
Proof.
  intros Hkey Hfail.
  rewrite (serve_with_key _ _ _ _ _ Hkey), relay_unfold.
  destruct Hfail as [-> | (response & -> & ->)];
    destruct route; repeat split.
Qed.

(** X20.  Every request to a data route gets a reply with a body and
    status 200, 500 or 502, no exception leaves the handler, and the
    provider is called once when a credential is configured and never
    otherwise. *)
Theorem reply_shape route :
  (handle API_KEY upstream toUpperCase encodeURIComponent route freshWorld).1
  = Normal tt /\
  is_Some (body (res (serve route))) /\
  statusCode (res (serve route)) ∈ [200%Z; 500%Z; 502%Z] /\
  outbound (serve route)
  = (if JsString.truthy API_KEY then [upstreamUrl route] else []).
Proof.
  split; [apply handle_never_throws|].
  destruct (JsString.truthy API_KEY) eqn:Hkey.
  - rewrite (serve_with_key _ _ _ _ _ Hkey), relay_unfold. cbn [res outbound].
    destruct (upstream (upstreamUrl route)) as [[okr [parsed|]]|];
      cbn [ok json];
      try (destruct (negb okr || negb (resultIsSuccess parsed)));
      (split; [eexists; reflexivity|]); (split; [|reflexivity]);
      cbn; set_solver.
  - rewrite (serve_without_key _ _ _ _ _ Hkey).
    split; [eexists; reflexivity|]. split; [|reflexivity]. cbn. set_solver.
Qed.

(** X21.  A [/rates] request without a [base] parameter, or with an empty
    one, is served exactly like a request for [base=USD]. *)
Theorem rates_base_defaults queryBase :
  JsString.truthy queryBase = false ->
  serve (RouteRates queryBase) = serve (RouteRates (Some "USD")).
Proof.
  intros Hq.
  assert (Hbase : JsString.orElse queryBase "USD" = "USD").
  { unfold JsString.orElse, JsString.truthy in *.
    destruct queryBase as [b|]; [|reflexivity].
    destruct (bool_decide (b = EmptyString)); [reflexivity | discriminate]. }
  unfold Proxy.serve, handle, getRates. rewrite Hbase. reflexivity.
Qed.

End ProxyOutcomes.

Section ProxyOutcomeSamples.
Import Effects Proxy.

(** [/codes] with a provider that answers. *)
Lemma upstream_success_relayed_witness :
  statusCode (res (Proxy.serve (Some "k3y") LiveSamples.answeringUpstream id id RouteCodes))
  = 200%Z /\
  body (res (Proxy.serve (Some "k3y") LiveSamples.answeringUpstream id id RouteCodes))
  = Some LiveSamples.catalogBody.
Proof.
  pose proof (upstream_success_relayed (Some "k3y") LiveSamples.answeringUpstream
                id id RouteCodes
                {| ok := true; json := Fulfilled LiveSamples.catalogBody |}
                LiveSamples.catalogBody) as H.
  destruct H as (Hstatus & Hbody & _); try reflexivity.
  split; [exact Hstatus | exact Hbody].
Defined.

(** [/rates] with a provider that answers with a page that is no JSON. *)
Lemma transport_failure_500_witness :
  statusCode (res (Proxy.serve (Some "k3y") LiveSamples.garbledUpstream id id
                     (RouteRates (Some "eur"))))
  = 500%Z /\
  body (res (Proxy.serve (Some "k3y") LiveSamples.garbledUpstream id id
               (RouteRates (Some "eur"))))
  = Some (JObject [("error", JString "Failed to fetch rates")]).
Proof.
  pose proof (transport_failure_500 (Some "k3y") LiveSamples.garbledUpstream
                id id (RouteRates (Some "eur"))) as H.
  destruct H as (Hstatus & Hbody & _).
  - reflexivity.
  - right. exists {| ok := true; json := Rejected |}. split; reflexivity.
  - split; [exact Hstatus | exact Hbody].
Defined.

(** [/rates] and [/rates?base=]. *)
Lemma rates_base_defaults_witness :
  Proxy.serve (Some "k3y") LiveSamples.answeringUpstream id id (RouteRates None)
  = Proxy.serve (Some "k3y") LiveSamples.answeringUpstream id id
      (RouteRates (Some "USD")).
Proof.
  apply (rates_base_defaults (Some "k3y") LiveSamples.answeringUpstream id id None).
  reflexivity.
Defined.

End ProxyOutcomeSamples.

Section Cors.
Import ProxyConfig.

Variable trim : string -> string.

Lemma filter_nonEmpty_Forall (pieces : list string) :
  Forall (fun origin => origin <> EmptyString) (List.filter nonEmpty pieces).
Proof.
  induction pieces as [|piece pieces IH]; [constructor|].
  cbn. destruct (nonEmpty piece) eqn:Hp; [|exact IH].
  constructor; [|exact IH].
  unfold nonEmpty in Hp. apply negb_true_iff, bool_decide_eq_false in Hp.
  exact Hp.
Qed.

Lemma filter_nonEmpty_nil (pieces : list string) :
  List.filter nonEmpty pieces = [] <->
  Forall (fun piece => piece = EmptyString) pieces.
Proof.
  induction pieces as [|piece pieces IH]; [split; constructor|].
  cbn. unfold nonEmpty at 1. case_bool_decide as Hp; cbn [negb].
  - rewrite IH. split.
    + intros H. constructor; assumption.
    + intros H. inversion H. assumption.
  - split; [discriminate|]. intros H. inversion H. contradiction.
Qed.

(** X22.  The origin policy handed to [cors] is either a list, which then
    is not empty, holds no empty origin and consists of the trimmed pieces
    of [ALLOWED_ORIGINS] in order, or any origin, which is the case exactly
    when the variable is unset, empty, or made of commas and pieces that
    trim to nothing. *)
Theorem cors_origin_policy (env : option string) :
  match corsOrigin trim env with
  | OriginList origins =>
      origins <> [] /\
      Forall (fun origin => origin <> EmptyString) origins /\
      exists value,
        env = Some value /\
        origins = List.filter nonEmpty (trim <$> splitComma value)
  | AnyOrigin =>
      JsString.truthy env = false \/
      exists value,
        env = Some value /\
        Forall (fun piece => trim piece = EmptyString) (splitComma value)
  end.
Proof.
  unfold corsOrigin, ALLOWED_ORIGINS.
  destruct env as [value|]; [|left; reflexivity].
  destruct (JsString.truthy (Some value)) eqn:Htruthy; [|left; reflexivity].
  destruct (List.filter nonEmpty (trim <$> splitComma value)) as [|o origins] eqn:E.
  - cbn. right. exists value. split; [reflexivity|].
    apply filter_nonEmpty_nil in E. rewrite Forall_fmap in E. exact E.
  - cbn. split; [discriminate|]. split.
    + rewrite <- E. apply filter_nonEmpty_Forall.
    + exists value. split; [reflexivity | symmetry; exact E].
Qed.

End Cors.

(** ** Reading and showing amounts *)

Section AmountParsing.
Import Converter.
Open Scope float_scope.

Variable Number : string -> float.
Variable toFixed2 : float -> string.

Abbreviation parseNumber := (Converter.parseNumber Number).
Abbreviation formatAmount := (Converter.formatAmount toFixed2).
Abbreviation setFromValue := (Converter.setFromValue Number toFixed2).
Abbreviation setToValue := (Converter.setToValue Number toFixed2).

Lemma replaceFirstComma_none s :
  includes s "," = false -> replaceFirstComma s = s.
Proof.
  induction s as [|c s IH]; [reflexivity|].
  cbn [includes startsWith replaceFirstComma].
  intros [Hhead Htail]%orb_false_elim.
  destruct (Ascii.eqb c ",") eqn:Hc.
  - apply Ascii.eqb_eq in Hc. subst c. destruct s; discriminate.
  - rewrite (IH Htail). reflexivity.
Qed.

Lemma replaceFirstComma_first before after :
  includes before "," = false ->
  replaceFirstComma (before +:+ "," +:+ after) = before +:+ "." +:+ after.
Proof.
  induction before as [|c before IH]; [reflexivity|].
  cbn [includes startsWith]. intros [Hhead Htail]%orb_false_elim.
  rewrite !(append_String c before). cbn [replaceFirstComma].
  destruct (Ascii.eqb c ",") eqn:Hc.
  - apply Ascii.eqb_eq in Hc. subst c. destruct before; discriminate.
  - rewrite (IH Htail). reflexivity.
Qed.

(** X23.  A decimal comma is read as a decimal point: the first comma of
    an amount, and only the first, is replaced before the text goes to
    [Number], and text without a comma goes to [Number] as it is. *)
Theorem comma_is_decimal_point before after :
  includes before "," = false ->
  parseNumber (before +:+ "," +:+ after) = Number (before +:+ "." +:+ after) /\
  parseNumber before = Number before.
Proof.
  intros Hnone. unfold Converter.parseNumber.
  rewrite (replaceFirstComma_first _ _ Hnone), (replaceFirstComma_none _ Hnone).
  split; reflexivity.
Qed.

Lemma mul_nan x rate : is_nan rate = true -> is_finite (x * rate) = false.
Proof.
  intros Hnan%is_nan_SF.
  assert (Hprod : is_nan (x * rate) = true).
  { apply SF_nan_is_nan. rewrite FloatAxioms.mul_spec, Hnan.
    unfold SF64mul, SFmul. destruct (Prim2SF x); reflexivity. }
  unfold is_finite. rewrite Hprod. reflexivity.
Qed.

Lemma div_nan x rate : is_nan rate = true -> is_finite (x / rate) = false.
Proof.
  intros Hnan%is_nan_SF.
  assert (Hquot : is_nan (x / rate) = true).
  { apply SF_nan_is_nan. rewrite FloatAxioms.div_spec, Hnan.
    unfold SF64div, SFdiv. destruct (Prim2SF x); reflexivity. }
  unfold is_finite. rewrite Hquot. reflexivity.
Qed.

(** X24.  When the cross rate is [NaN], every amount typed on either side
    is shown converted as ["0.00"], whatever was typed. *)
Theorem nan_rate_shows_zero rate value s :
  is_nan rate = true ->
  amountTo (setFromValue rate value s) = "0.00" /\
  amountFrom (setToValue rate value s) = "0.00".
Proof.
  intros Hnan. cbn [Converter.setFromValue Converter.setToValue amountTo amountFrom].
  unfold Converter.formatAmount.
  rewrite (mul_nan _ _ Hnan), (div_nan _ _ Hnan). split; reflexivity.
Qed.

End AmountParsing.

Section AmountParsingSamples.
Import Converter.
Open Scope float_scope.

(** One comma, then a second one. *)
Lemma comma_is_decimal_point_witness :
  Converter.parseNumber (fun _ => 0) ("1" +:+ "," +:+ "5,0") = 0 /\
  replaceFirstComma "1,5,0" = "1.5,0".
Proof.
  split.
  - apply (comma_is_decimal_point (fun _ => 0) "1" "5,0"). reflexivity.
  - reflexivity.
Defined.

(** The rate of a table whose entries are [Infinity]. *)
Lemma nan_rate_shows_zero_witness :
  amountTo
    (Converter.setFromValue (fun _ => 12) (fun _ => "12.00")
       (Client.rate {["USD" := infinity]} "USD" "USD") "12" initialConverter)
  = "0.00".
Proof.
  apply (nan_rate_shows_zero (fun _ => 12) (fun _ => "12.00")
           (Client.rate {["USD" := infinity]} "USD" "USD") "12" initialConverter).
  vm_compute. reflexivity.
Defined.

End AmountParsingSamples.
